(** * Triggered sentry actions of hypercoil ([hypercoil/engine/action.py])

    A shallow embedding of the [propagate] routines of the sentry actions,
    and of [ModuleReport._register_trigger], over an explicit object store.
    Python objects are references: sentries live in a store indexed by
    identifiers, an action's scratch message is a cell of the world, and the
    calls an action makes to code outside [action.py] are recorded in a
    trace.  An exception leaves the mutations made before it in place, so a
    computation returns an outcome together with the world it reached. *)

From Stdlib Require Import ZArith Floats.
From stdpp Require Import gmap strings list fin_maps functions pretty.

(** ** Python values and exceptions *)

(** The atoms that travel through positional and keyword arguments. *)
Inductive value :=
  | VNone
  | VInt (z : Z)
  | VFloat (f : float)
  | VStr (s : string).

(** The built-in exceptions the actions can raise or catch. *)
Inductive exn :=
  | KeyError
  | TypeError
  | ValueError
  | NameError
  | ZeroDivisionError.

Global Instance exn_eq_dec : EqDecision exn.
Proof. solve_decision. Defined.

Inductive outcome (A : Type) :=
  | Ok (a : A)
  | Raise (e : exn).
Arguments Ok {A} a.
Arguments Raise {A} e.

Global Instance outcome_eq_dec `{EqDecision A} : EqDecision (outcome A).
Proof. solve_decision. Defined.

(** ** Floating point

    Python's [float] is IEEE 754 binary64, which is what Rocq's primitive
    floats are.  An [int] operand of a float operation is first converted,
    rounding to nearest even. *)

Definition float_of_Z (z : Z) : float :=
  SF2Prim (binary_normalize prec emax z 0 false).

(** [sum(record)]: a left-to-right sum that starts from the integer [0]. *)
Definition py_sum (record : list float) : float :=
  fold_left PrimFloat.add record (float_of_Z 0).

(** [x / y] on floats; Python raises where IEEE would give an infinity or
    a NaN for a zero divisor. *)
Definition py_truediv (x y : float) : outcome float :=
  if PrimFloat.eqb y 0%float then Raise ZeroDivisionError
  else Ok (PrimFloat.div x y).

(** [a % b] on integers: the result takes the sign of the divisor, as
    [Z.modulo] does. *)
Definition py_mod (a b : Z) : outcome Z :=
  if decide (b = 0%Z) then Raise ZeroDivisionError else Ok (a `mod` b)%Z.

(** ** Messages *)

(** A line of a data payload: a name, or Python's [None]. *)
Definition line : Type := option string.

(** Modelled from the spec: the content of a message ([sentry.py], which
    declares [SentryMessage], is not among the sources).  A message is a
    keyword dictionary; its keys are the trigger names the actions of this
    module look up, and each key carries a payload of one type: the epoch
    number and the batch count are integers, the loss and the multipliers
    are floats, the loss name is a string, and the data payload maps a line
    to an input.  A key that is absent is [None] here and a [KeyError] when
    it is looked up. *)
Record message := Message {
  EPOCH : option Z;
  NU : option float;
  NU_BASE : option float;
  LOSS : option float;
  NAME : option string;
  DATA : option (gmap line value);
  BATCH : option Z;
}.

Definition empty_message : message :=
  Message None None None None None None None.

(** Modelled from the spec: [SentryMessage.update] ([sentry.py] is not
    among the sources).  The actions call [self.message.update(('NU', v))],
    which binds the key ['NU'] to [v] in the scratch buffer and keeps the
    other entries. *)
Definition message_update_NU (v : float) (m : message) : message :=
  Message (EPOCH m) (Some v) (NU_BASE m) (LOSS m) (NAME m) (DATA m) (BATCH m).

(** ** Sentries *)

(** References to sentries and to actions. *)
Definition sid : Type := nat.
Definition aid : Type := nat.

(** A class object, known by its name. *)
Inductive pyclass :=
  | Class (name : string).

Global Instance pyclass_eq_dec : EqDecision pyclass.
Proof. solve_decision. Defined.

(** Modelled from the spec: the fields of a sentry ([sentry.py], which
    declares [Sentry], is not among the sources).  [listeners], [listening]
    and [actions] hold references; [nu] is the scalar multiplier;
    [epoch_buffer] and [archive] are plain dictionaries from a loss name to
    the list of values recorded under it, each name owning its own list;
    [batched] counts the items seen since the last release. *)
Record sentry := Sentry {
  cls : pyclass;
  listeners : list sid;
  listening : list sid;
  actions : list aid;
  nu : float;
  epoch_buffer : gmap string (list float);
  archive : gmap string (list float);
  batched : Z;
}.

Definition set_actions (v : list aid) (s : sentry) : sentry :=
  Sentry (cls s) (listeners s) (listening s) v (nu s)
         (epoch_buffer s) (archive s) (batched s).
Definition set_nu (v : float) (s : sentry) : sentry :=
  Sentry (cls s) (listeners s) (listening s) (actions s) v
         (epoch_buffer s) (archive s) (batched s).
Definition set_epoch_buffer (v : gmap string (list float)) (s : sentry) : sentry :=
  Sentry (cls s) (listeners s) (listening s) (actions s) (nu s)
         v (archive s) (batched s).
Definition set_archive (v : gmap string (list float)) (s : sentry) : sentry :=
  Sentry (cls s) (listeners s) (listening s) (actions s) (nu s)
         (epoch_buffer s) v (batched s).
Definition set_batched (v : Z) (s : sentry) : sentry :=
  Sentry (cls s) (listeners s) (listening s) (actions s) (nu s)
         (epoch_buffer s) (archive s) v.

(** ** The world *)

(** What an action asks of code outside this module. *)
Inductive event :=
  | Released (s : sid)
  | Called (s : sid) (args : list value) (kwargs : gmap string value)
  | Listened (s : sid) (m : message).

Abbreviation store := (sid → sentry).

Record world := World {
  objs : store;
  scratch : aid → message;
  trace : list event;
}.

(** ** The monad of actions: state with exceptions *)

Definition M (A : Type) : Type := world → outcome A * world.

Global Instance M_ret : MRet M := λ A a w, (Ok a, w).
Global Instance M_bind : MBind M := λ A B k c w,
  match c w with
  | (Ok a, w') => k a w'
  | (Raise e, w') => (Raise e, w')
  end.

Definition raise {A} (e : exn) : M A := λ w, (Raise e, w).

(** [try: body except e: handler] *)
Definition try_except {A} (body : M A) (e : exn) (handler : M A) : M A := λ w,
  match body w with
  | (Raise e', w') => if decide (e' = e) then handler w' else (Raise e', w')
  | r => r
  end.

(** [sentry.f] *)
Definition attr {A} (s : sid) (f : sentry → A) : M A := λ w, (Ok (f (objs w s)), w).

(** [sentry.f = v], as an update of the object the reference names *)
Definition assign (s : sid) (upd : sentry → sentry) : M unit := λ w,
  (Ok tt, World (<[s := upd (objs w s)]> (objs w)) (scratch w) (trace w)).

Definition emit (ev : event) : M unit := λ w,
  (Ok tt, World (objs w) (scratch w) (trace w ++ [ev])).

(** [received[key]] *)
Definition item {A} (key : message → option A) (received : message) : M A :=
  match key received with
  | Some v => mret v
  | None => raise KeyError
  end.

(** [d[k]] on a dictionary *)
Definition getitem {A} (d : gmap string A) (k : string) : M A :=
  match d !! k with
  | Some v => mret v
  | None => raise KeyError
  end.

Definition lift {A} (r : outcome A) : M A := λ w, (r, w).

(** [for x in xs: body], with the local variables of the loop threaded
    through as [acc]. *)
Fixpoint for_each {A B} (xs : list A) (body : A → B → M B) (acc : B) : M B :=
  match xs with
  | [] => mret acc
  | x :: rest => acc' ← body x acc; for_each rest body acc'
  end.

(** [xs.remove(x)]: drops the first occurrence, [None] when there is none
    (Python then raises [ValueError]). *)
Fixpoint list_remove_first (x : aid) (xs : list aid) : option (list aid) :=
  match xs with
  | [] => None
  | y :: rest =>
      if decide (y = x) then Some rest
      else cons y <$> list_remove_first x rest
  end.

(** ** Names bound in [action.py]

    The module imports [torch] and [SentryAction] and defines its action
    classes; these, with the built-ins it uses, are the names its code can
    load. *)

Definition action_py_globals : list string :=
  [ "torch"; "SentryAction";
    "PropagateMultiplierFromTransform";
    "PropagateMultiplierFromEpochTransform";
    "PropagateMultiplierFromRecursiveTransform";
    "UpdateMultiplier"; "ResetMultiplier"; "RecordLoss"; "ArchiveLoss";
    "ModuleReport"; "ModuleSave"; "WriteTSV"; "Convey"; "CountBatches";
    "BatchRelease"; "VerboseReceive" ].

Definition builtins_used : list string :=
  [ "super"; "sum"; "len"; "float"; "isinstance"; "any"; "print";
    "ValueError"; "TypeError" ].

(** Loading a global name: module globals first, then built-ins, else
    [NameError]. *)
Definition load_name (name : string) : M pyclass :=
  if bool_decide (name ∈ action_py_globals ++ builtins_used)
  then mret (Class name)
  else raise NameError.

(** [isinstance(i, c)], on the class an object was made from. *)
Definition isinstance (c_obj : pyclass) (c : pyclass) : bool :=
  bool_decide (c_obj = c).

(** [len(record)] *)
Definition len {A} (record : list A) : Z := Z.of_nat (length record).

(** [x / n] with a float [x] and an integer [n]: the divisor is converted
    first, and the converted divisor is zero exactly when [n] is. *)
Definition py_truediv_int (x : float) (n : Z) : outcome float :=
  if decide (n = 0%Z) then Raise ZeroDivisionError
  else Ok (PrimFloat.div x (float_of_Z n)).

(** A line passed as a keyword argument. *)
Definition value_of_line (l : line) : value :=
  match l with
  | Some name => VStr name
  | None => VNone
  end.

(** ** The actions *)

(** The constructor arguments an action keeps. *)
Record ModuleReport := {
  report_interval : Z;
  save_root : option string;
  save_format : string;
  report_args : list value;
  report_kwargs : gmap string value;
}.

Record Convey := {
  receive_line : line;
  transmit_line : line;
}.

Record BatchRelease := {
  batch_size : Z;
}.

(** The [save] argument of a report: the path
    [f'{save_root}_epoch-{epoch}{save_format}'], or [None] without a root. *)
Definition report_save (self : ModuleReport) (epoch : Z) : value :=
  match save_root self with
  | Some root =>
      VStr (root +:+ "_epoch-" +:+ pretty epoch +:+ save_format self)
  | None => VNone
  end.

Section Actions.

(** Capabilities of a sentry that are defined outside [action.py], taken
    as parameters.  [release] and [_listen] are arbitrary transformers of
    the object store that return normally; calling the sentry itself
    ([__call__]) may also raise. *)
Variable release : sid → store → store.
Variable listen : sid → message → store → store.
Variable sentry_call :
  sid → list value → gmap string value → store → outcome unit * store.

(** [sentry.release()] *)
Definition call_release (sentry : sid) : M unit := λ w,
  (Ok tt, World (release sentry (objs w)) (scratch w)
                (trace w ++ [Released sentry])).

(** The body of [sentry(args, kwargs)] is entered. *)
Definition invoke (sentry : sid) (args : list value)
    (kwargs : gmap string value) : M unit := λ w,
  let '(r, st) := sentry_call sentry args kwargs (objs w) in
  (r, World st (scratch w) (trace w ++ [Called sentry args kwargs])).

(** A call of the sentry with positional arguments, the keyword
    [key=v] and further keywords: a keyword given twice is a
    [TypeError] of the call itself, raised before the body is entered. *)
Definition invoke_with (sentry : sid) (args : list value) (key : string)
    (v : value) (kwargs : gmap string value) : M unit :=
  match kwargs !! key with
  | Some _ => raise TypeError
  | None => invoke sentry args (<[key := v]> kwargs)
  end.

(** [self.message.update(('NU', v))] *)
Definition update_message_NU (self : aid) (v : float) : M unit := λ w,
  (Ok tt, World (objs w)
                (<[self := message_update_NU v (scratch w self)]> (scratch w))
                (trace w)).

(** [s._listen(self.message)]: the listener is handed the scratch
    message as it stands. *)
Definition deliver (self : aid) (s : sid) : M unit := λ w,
  let m := scratch w self in
  (Ok tt, World (listen s m (objs w)) (scratch w)
                (trace w ++ [Listened s m])).

Definition PropagateMultiplierFromEpochTransform_propagate
    (transform : Z → float) (self : aid) (sentry : sid)
    (received : message) : M unit :=
  epoch ← item EPOCH received;
  update_message_NU self (transform epoch);;
  ls ← attr sentry listeners;
  for_each ls (λ s _, deliver self s) tt.

(** One turn of the loop of the recursive transform: the listener's own
    multiplier is read, the scratch message is updated and handed over.
    The loops over [sentry.listeners] run over the listeners the sentry
    has when the loop starts: listeners are registered when the graph is
    built, not while a message propagates. *)
Definition recursive_turn (transform : float → float) (self : aid)
    (s : sid) (_ : unit) : M unit :=
  s_nu ← attr s nu;
  update_message_NU self (transform s_nu);;
  deliver self s.

Definition PropagateMultiplierFromRecursiveTransform_propagate
    (transform : float → float) (self : aid) (sentry : sid)
    (received : message) : M unit :=
  ls ← attr sentry listeners;
  for_each ls (recursive_turn transform self) tt.

Definition UpdateMultiplier_propagate (sentry : sid)
    (received : message) : M unit :=
  v ← item NU received;
  assign sentry (set_nu v).

Definition ResetMultiplier_propagate (self : aid) (sentry : sid)
    (received : message) : M unit :=
  ls ← attr sentry listeners;
  for_each ls (λ s _,
    base ← item NU_BASE received;
    update_message_NU self base;;
    deliver self s) tt.

(** [sentry.epoch_buffer[name] += [x]]: the entry is read ([KeyError]
    when the name has none), the right-hand side is evaluated, and the
    extended list is stored back. *)
Definition buffer_append (sentry : sid) (name : string)
    (rhs : M float) : M unit :=
  buffer ← attr sentry epoch_buffer;
  record ← getitem buffer name;
  x ← rhs;
  assign sentry (λ s,
    set_epoch_buffer (<[name := record ++ [x]]> (epoch_buffer s)) s).

Definition RecordLoss_propagate (sentry : sid)
    (received : message) : M unit :=
  name ← item NAME received;
  buffer_append sentry name (item LOSS received);;
  buffer_append sentry (name +:+ "_norm")
    (loss ← item LOSS received;
     nu ← item NU received;
     lift (py_truediv loss nu)).

(** The first loop of [ArchiveLoss.propagate]; [staging] is its local
    dictionary. *)
Definition stage_loss (sentry : sid) (entry : string * list float)
    (staging : gmap string float) : M (gmap string float) :=
  let '(loss, record) := entry in
  if decide (len record = 0%Z) then mret staging
  else
    mean ← lift (py_truediv_int (py_sum record) (len record));
    assign sentry (λ s,
      set_epoch_buffer (<[loss := []]> (epoch_buffer s)) s);;
    mret (<[loss := mean]> staging).

(** The second loop: [sentry.archive[loss] += [new]]. *)
Definition archive_loss (sentry : sid) (staging : gmap string float)
    (entry : string * list float) (_ : unit) : M unit :=
  let '(loss, _) := entry in
  let new := default PrimFloat.nan (staging !! loss) in
  arch ← attr sentry archive;
  old ← getitem arch loss;
  assign sentry (λ s, set_archive (<[loss := old ++ [new]]> (archive s)) s).

(** The items of a dictionary are visited once each; an entry is only
    rewritten at its own visit, so the loop sees the records the
    dictionary held when it started. *)
Definition ArchiveLoss_propagate (sentry : sid)
    (received : message) : M unit :=
  buffer ← attr sentry epoch_buffer;
  staging ← for_each (map_to_list buffer) (stage_loss sentry) ∅;
  if decide (size staging = 0) then mret tt
  else
    arch ← attr sentry archive;
    for_each (map_to_list arch) (archive_loss sentry staging) tt.

Definition ModuleReport_propagate (self : ModuleReport) (sentry : sid)
    (received : message) : M unit :=
  epoch ← item EPOCH received;
  r ← lift (py_mod epoch (report_interval self));
  if decide (r = 0%Z) then
    epoch ← item EPOCH received;
    let save := report_save self epoch in
    try_except
      (invoke_with sentry (report_args self) "save" save (report_kwargs self))
      TypeError
      (invoke sentry (report_args self) (report_kwargs self))
  else mret tt.

(** [isinstance(i, Epochs) for i in sentry.listening]: each element
    loads the name [Epochs] and tests the class of [i]. *)
Definition epochs_check_elem (i : sid) (checks : list bool) : M (list bool) :=
  c ← load_name "Epochs";
  k ← attr i cls;
  mret (checks ++ [isinstance k c]).

Definition ModuleReport_register_trigger (self : aid)
    (sentry : sid) : M unit :=
  ls ← attr sentry listening;
  epochs_check ← for_each ls epochs_check_elem [];
  if negb (existsb id epochs_check) then
    acts ← attr sentry actions;
    match list_remove_first self acts with
    | Some acts' => assign sentry (set_actions acts');; raise ValueError
    | None => raise ValueError
    end
  else mret tt.

Definition Convey_propagate (self : Convey) (sentry : sid)
    (received : message) : M unit :=
  data ← item DATA received;
  let input := default VNone (data !! receive_line self) in
  match input with
  | VNone => mret tt
  | _ =>
      invoke sentry [input] {[ "line" := value_of_line (transmit_line self) ]}
  end.

Definition CountBatches_propagate (sentry : sid)
    (received : message) : M unit :=
  count ← item BATCH received;
  b ← attr sentry batched;
  assign sentry (set_batched (b + count)).

Definition BatchRelease_propagate (self : BatchRelease) (sentry : sid)
    (received : message) : M unit :=
  b ← attr sentry batched;
  if decide (batch_size self ≤ b)%Z then
    call_release sentry;;
    assign sentry (set_batched 0)
  else mret tt.

End Actions.

(** ** Actions that write files

    [ModuleSave] and [WriteTSV] hand a path to a writer outside this
    module: [torch.save] for the [state_dict()] of a module, and [to_csv]
    of the table the sentry holds as [sentry.data].  The content written
    and the writers are opaque here and taken to return normally; an
    action returns the list of the writes it asked for. *)

Inductive file_write :=
  | TorchSave (module : nat) (path : string)
  | ToCsv (sentry : sid) (path : string).

Definition written_path (f : file_write) : string :=
  match f with
  | TorchSave _ path => path
  | ToCsv _ path => path
  end.

Module ModuleSave.

(** The constructor arguments the action keeps; [module] is a reference
    to the module whose [state_dict()] is saved. *)
Record t := {
  save_interval : Z;
  module : nat;
  save_root : string;
  save_format : string;
}.

(** [f'{self.save_root}_epoch-{epoch}{self.save_format}'] *)
Definition save_path (self : t) (epoch : Z) : string :=
  save_root self +:+ "_epoch-" +:+ pretty epoch +:+ save_format self.

Definition propagate (self : t) (sentry : sid)
    (received : message) : M (list file_write) :=
  epoch ← item EPOCH received;
  r ← lift (py_mod epoch (save_interval self));
  if decide (r = 0%Z) then
    epoch ← item EPOCH received;
    mret [TorchSave (module self) (save_path self epoch)]
  else mret [].

End ModuleSave.

Module WriteTSV.

Record t := {
  save_interval : Z;
  save_root : string;
  overwrite : bool;
}.

Definition propagate (self : t) (sentry : sid)
    (received : message) : M (list file_write) :=
  epoch ← item EPOCH received;
  r ← lift (py_mod epoch (save_interval self));
  if decide (r = 0%Z) then
    if overwrite self then
      mret [ToCsv sentry (save_root self +:+ ".tsv")]
    else
      epoch ← item EPOCH received;
      mret [ToCsv sentry
              (save_root self +:+ "_epoch-" +:+ pretty epoch +:+ ".tsv")]
  else mret [].

End WriteTSV.

(** The writes a run asked for; a run that raised asked for none. *)
Definition writes_of (r : outcome (list file_write) * world) : list file_write :=
  match r.1 with
  | Ok fs => fs
  | Raise _ => []
  end.

(** ** ArchiveLoss in closed form *)

(** The mean that [ArchiveLoss] stages for a record, when it stages one. *)
Definition staged_mean (record : list float) : option float :=
  if decide (len record = 0%Z) then None
  else Some (PrimFloat.div (py_sum record) (float_of_Z (len record))).

(** The staging dictionary after the first loop. *)
Definition staged (buffer : gmap string (list float)) : gmap string float :=
  omap staged_mean buffer.

(** The archive after the second loop: every archived name gets one more
    entry, its staged mean or NaN. *)
Definition archived (staging : gmap string float)
    (arch : gmap string (list float)) : gmap string (list float) :=
  map_imap (λ loss old,
    Some (old ++ [default PrimFloat.nan (staging !! loss)])) arch.

(** ** Scenarios *)

(** A message that only has the key ['BATCH']. *)
Definition batch_message (count : Z) : message :=
  Message None None None None None None (Some count).

(** A sentry on which [CountBatches] and then [BatchRelease] are
    registered handles a ['BATCH'] message by running them in that order. *)
Definition count_then_release (release : sid → store → store)
    (self : BatchRelease) (sentry : sid) (received : message) : M unit :=
  CountBatches_propagate sentry received;;
  BatchRelease_propagate release self sentry received.

(** A reporter (sentry [1], with the action [7] in its list) that listens
    to an epoch emitter (sentry [0], an instance of [Epochs]). *)
Definition epochs_emitter : sentry :=
  Sentry (Class "Epochs") [1] [] [] 1%float ∅ ∅ 0.
Definition reporter : sentry :=
  Sentry (Class "Reporter") [] [0] [7] 1%float ∅ ∅ 0.
Definition registration_world : world :=
  World (λ o, if decide (o = 0) then epochs_emitter else reporter)
        (λ _, empty_message) [].

(** The message [{'LOSS': 4.0, 'NAME': 'x', 'NU': 2.0}]. *)
Definition loss_message : message :=
  Message None (Some 2%float) None (Some 4%float) (Some "x") None None.

(** A sentry that has recorded and archived nothing, and the world in
    which every reference names it. *)
Definition blank_sentry : sentry :=
  Sentry (Class "LossArchive") [] [] [] 1%float ∅ ∅ 0.
Definition blank_world : world :=
  World (λ _, blank_sentry) (λ _, empty_message) [].

(** The store after a sequence of deliveries, each handled by the
    listener it went to. *)
Definition store_after (listen : sid → message → store → store)
    (deliveries : list (sid * message)) (st : store) : store :=
  foldl (λ st d, listen d.1 d.2 st) st deliveries.

(** A listener on which [UpdateMultiplier] is registered: it handles a
    message that has the key ['NU'] by running that action. *)
Definition updating_listener (s : sid) (m : message) (st : store) : store :=
  objs (UpdateMultiplier_propagate s m (World st (λ _, empty_message) [])).2.

(** A message that only has the key ['EPOCH']. *)
Definition epoch_message (epoch : Z) : message :=
  Message (Some epoch) None None None None None None.

(** A message that only has the key ['NU']. *)
Definition nu_message (v : float) : message :=
  Message None (Some v) None None None None None.

(** A scheduler (sentry [0]) with two listeners, [1] and [2], whose
    multipliers are [1.0] and [8.0]. *)
Definition schedule_world : world :=
  World (λ o,
           if decide (o = 0) then
             Sentry (Class "Scheduler") [1; 2] [] [] 0%float ∅ ∅ 0
           else if decide (o = 1) then
             Sentry (Class "Loss") [] [0] [] 1%float ∅ ∅ 0
           else
             Sentry (Class "Loss") [] [0] [] 8%float ∅ ∅ 0)
        (λ _, empty_message) [].

(** A world whose sentries all hold the given epoch buffer and archive. *)
Definition archive_world (buffer archive : gmap string (list float)) : world :=
  World (λ _, Sentry (Class "LossArchive") [] [] [] 1%float buffer archive 0)
        (λ _, empty_message) [].

(** A sentry whose body rejects the keyword [save] and accepts any other
    call, and one that accepts every call; neither touches the store. *)
Definition rejects_save (s : sid) (args : list value)
    (kwargs : gmap string value) (st : store) : outcome unit * store :=
  if decide (is_Some (kwargs !! "save")) then (Raise TypeError, st)
  else (Ok tt, st).
Definition accepts_all (s : sid) (args : list value)
    (kwargs : gmap string value) (st : store) : outcome unit * store :=
  (Ok tt, st).

(** [ModuleReport(5, save_root='out')] *)
Definition every_fifth : ModuleReport :=
  {| report_interval := 5; save_root := Some "out"; save_format := ".png";
     report_args := []; report_kwargs := ∅ |}.

(** [Convey(receive_line='in', transmit_line='out')] *)
Definition in_to_out : Convey :=
  {| receive_line := Some "in"; transmit_line := Some "out" |}.

(** A message whose data has the input [5] on the line ['in']. *)
Definition data_message : message :=
  Message None None None None None (Some {[ Some "in" := VInt 5 ]}) None.

(** Halving, as a recursive schedule. *)
Definition halve (x : float) : float := PrimFloat.div x 2%float.

(** The message [{'LOSS': 3.0, 'NAME': 'mse', 'NU': 4.0}], and the same
    with a multiplier of zero. *)
Definition mse_message : message :=
  Message None (Some 4%float) None (Some 3%float) (Some "mse") None None.
Definition mse_message_zero_nu : message :=
  Message None (Some 0%float) None (Some 3%float) (Some "mse") None None.

(** A message that only has the key ['NU_BASE']. *)
Definition base_message (base : float) : message :=
  Message None None (Some base) None None None None.

(** A schedule that is linear in the epoch. *)
Definition linear (epoch : Z) : float := float_of_Z epoch.

(** [ModuleReport(0)] *)
Definition never_reports : ModuleReport :=
  {| report_interval := 0; save_root := None; save_format := ".png";
     report_args := []; report_kwargs := ∅ |}.

(** A sentry that listens to nothing and has the action [3] twice in its
    list of actions. *)
Definition unregistered_world : world :=
  World (λ _, Sentry (Class "Reporter") [] [] [3; 7; 3] 1%float ∅ ∅ 0)
        (λ _, empty_message) [].

(** [ModuleSave(2, module, 'model')] *)
Definition checkpoint_every_two : ModuleSave.t :=
  {| ModuleSave.save_interval := 2; ModuleSave.module := 0;
     ModuleSave.save_root := "model"; ModuleSave.save_format := ".pt" |}.

(** [WriteTSV(1, 'losses')] and [WriteTSV(1, 'losses', overwrite=False)] *)
Definition table_overwritten : WriteTSV.t :=
  {| WriteTSV.save_interval := 1; WriteTSV.save_root := "losses";
     WriteTSV.overwrite := true |}.
Definition table_per_epoch : WriteTSV.t :=
  {| WriteTSV.save_interval := 1; WriteTSV.save_root := "losses";
     WriteTSV.overwrite := false |}.

(** ** What a run leaves alone *)

(** Every sentry but [sentry], the scratch messages and the trace are as
    they were. *)
Definition same_but (sentry : sid) (w w' : world) : Prop :=
  (∀ o, o ≠ sentry → objs w' o = objs w o)
  ∧ scratch w' = scratch w
  ∧ trace w' = trace w.

(** The events a run added to the trace. *)
Definition events_since (w w' : world) : list event :=
  drop (length (trace w)) (trace w').

(** * Properties *)

Lemma same_but_refl sentry w : same_but sentry w w.
Proof. by repeat split. Qed.

Lemma same_but_trans sentry w1 w2 w3 :
  same_but sentry w1 w2 → same_but sentry w2 w3 → same_but sentry w1 w3.
Proof.
  intros (Ho & Hs & Ht) (Ho' & Hs' & Ht'). repeat split.
  - intros o Hne. rewrite Ho', Ho; done.
  - congruence.
  - congruence.
Qed.

Lemma same_but_assign sentry upd w :
  same_but sentry w (assign sentry upd w).2.
Proof.
  repeat split. intros o Hne. cbn. by rewrite fn_lookup_insert_ne.
Qed.

Lemma bind_ok {A B} (c : M A) (k : A → M B) w a w' :
  c w = (Ok a, w') → (c ≫= k) w = k a w'.
Proof. intros Hc. unfold mbind, M_bind. by rewrite Hc. Qed.

Lemma bind_raise {A B} (c : M A) (k : A → M B) w e w' :
  c w = (Raise e, w') → (c ≫= k) w = (Raise e, w').
Proof. intros Hc. unfold mbind, M_bind. by rewrite Hc. Qed.

Lemma events_since_app w w' evs :
  trace w' = trace w ++ evs → events_since w w' = evs.
Proof. intros Ht. unfold events_since. by rewrite Ht, drop_app_length. Qed.

(** Runs the straight-line part of an action. *)
Ltac run :=
  repeat (unfold mbind, M_bind, mret, M_ret, raise, lift, attr, assign,
            emit in *; cbn in *).

(** ** UpdateMultiplier *)

(** C7: on a message that has the key ['NU'], [UpdateMultiplier.propagate]
    returns normally, sets [sentry.nu] to [received['NU']], and leaves the
    listeners, the listening set, the actions, the epoch buffer, the archive
    and the batch counter of the sentry as they were; no other sentry, no
    scratch message and no trace entry changes either. *)
Theorem C7_UpdateMultiplier_sets_only_nu
    (w : world) (sentry : sid) (received : message) (v : float) :
  NU received = Some v →
  let r := UpdateMultiplier_propagate sentry received w in
  let s := objs w sentry in
  let s' := objs r.2 sentry in
  r.1 = Ok tt
  ∧ nu s' = v
  ∧ cls s' = cls s
  ∧ listeners s' = listeners s
  ∧ listening s' = listening s
  ∧ actions s' = actions s
  ∧ epoch_buffer s' = epoch_buffer s
  ∧ archive s' = archive s
  ∧ batched s' = batched s
  ∧ same_but sentry w r.2.
Proof.
  intros HNU. unfold UpdateMultiplier_propagate, item. rewrite HNU.
  run. rewrite fn_lookup_insert. cbn.
  repeat split. intros o Hne. cbn. by rewrite fn_lookup_insert_ne.
Qed.

(** ** CountBatches and BatchRelease *)

Section Batching.
Variable release : sid → store → store.

Lemma CountBatches_run w sentry count :
  CountBatches_propagate sentry (batch_message count) w =
    (Ok tt,
     World (<[sentry := set_batched (batched (objs w sentry) + count)
                          (objs w sentry)]> (objs w))
           (scratch w) (trace w)).
Proof. reflexivity. Qed.

Lemma BatchRelease_below self w sentry received :
  (batched (objs w sentry) < batch_size self)%Z →
  BatchRelease_propagate release self sentry received w = (Ok tt, w).
Proof.
  intros Hlt. unfold BatchRelease_propagate. run.
  destruct (decide _) as [Hge|_]; [lia|done].
Qed.

Lemma BatchRelease_reached self w sentry received :
  (batch_size self ≤ batched (objs w sentry))%Z →
  BatchRelease_propagate release self sentry received w =
    (Ok tt,
     World (<[sentry := set_batched 0 (release sentry (objs w) sentry)]>
              (release sentry (objs w)))
           (scratch w) (trace w ++ [Released sentry])).
Proof.
  intros Hge. unfold BatchRelease_propagate. run.
  destruct (decide _) as [_|Hlt]; [|lia]. by run.
Qed.

(** C2: starting from [batched = 0], with [CountBatches] and
    [BatchRelease(batch_size=10)] handling each message in that order,
    three messages [{'BATCH': 4}] all return normally; [release()] is not
    invoked by the first two and is invoked exactly once by the third,
    after which [sentry.batched] is [0]. *)
Theorem C2_BatchRelease_scenario (w : world) (sentry : sid) :
  batched (objs w sentry) = 0%Z →
  let step :=
    count_then_release release {| batch_size := 10 |} sentry
      (batch_message 4) in
  let r1 := step w in
  let r2 := step r1.2 in
  let r3 := step r2.2 in
  r1.1 = Ok tt ∧ r2.1 = Ok tt ∧ r3.1 = Ok tt
  ∧ events_since w r1.2 = []
  ∧ events_since w r2.2 = []
  ∧ events_since w r3.2 = [Released sentry]
  ∧ batched (objs r3.2 sentry) = 0%Z.
Proof.
  intros H0. cbn zeta. unfold count_then_release.
  set (w1 := World (<[sentry := set_batched 4 (objs w sentry)]> (objs w))
                   (scratch w) (trace w)).
  assert (H1 : (CountBatches_propagate sentry (batch_message 4);;
                BatchRelease_propagate release {| batch_size := 10 |} sentry
                  (batch_message 4)) w = (Ok tt, w1)).
  { erewrite bind_ok by apply CountBatches_run. rewrite H0.
    rewrite BatchRelease_below; [done|]. cbn. rewrite fn_lookup_insert.
    cbn. lia. }
  rewrite H1. cbn [fst snd].
  set (w2 := World (<[sentry := set_batched 8 (objs w1 sentry)]> (objs w1))
                   (scratch w) (trace w)).
  assert (H2 : (CountBatches_propagate sentry (batch_message 4);;
                BatchRelease_propagate release {| batch_size := 10 |} sentry
                  (batch_message 4)) w1 = (Ok tt, w2)).
  { erewrite bind_ok by apply CountBatches_run.
    assert (Hb : batched (objs w1 sentry) = 4%Z).
    { unfold w1. cbn. by rewrite fn_lookup_insert. }
    rewrite Hb. rewrite BatchRelease_below; [done|]. cbn.
    rewrite fn_lookup_insert. cbn. lia. }
  rewrite H2. cbn [fst snd].
  erewrite bind_ok by apply CountBatches_run.
  assert (Hb : batched (objs w2 sentry) = 8%Z).
  { unfold w2. cbn. by rewrite fn_lookup_insert. }
  rewrite Hb. rewrite BatchRelease_reached.
  2:{ cbn. rewrite fn_lookup_insert. cbn. lia. }
  cbn [fst snd objs trace].
  repeat split.
  - apply events_since_app. by rewrite app_nil_r.
  - apply events_since_app. by rewrite app_nil_r.
  - by apply events_since_app.
  - by rewrite fn_lookup_insert.
Qed.

End Batching.

(** ** Convey and ModuleReport: calls of the sentry *)

Section Calls.
Variable sentry_call :
  sid → list value → gmap string value → store → outcome unit * store.

Lemma invoke_trace sentry args kwargs w :
  trace (invoke sentry_call sentry args kwargs w).2 =
    trace w ++ [Called sentry args kwargs].
Proof. unfold invoke. by destruct (sentry_call _ _ _ _). Qed.

Lemma invoke_events sentry args kwargs w :
  events_since w (invoke sentry_call sentry args kwargs w).2 =
    [Called sentry args kwargs].
Proof. apply events_since_app, invoke_trace. Qed.

(** C10: on a message that has the key ['DATA'], [Convey.propagate] looks
    up the configured receive line.  When the data has no entry for it, or
    the entry is [None], the run returns normally and the world is exactly
    as before (no call, no state change).  Otherwise the run is the call of
    the sentry with the retrieved input as its only positional argument
    and [line=transmit_line], and that call is the one event it adds. *)
Theorem C10_Convey_forwards_only_present_input
    (self : Convey) (w : world) (sentry : sid) (received : message)
    (data : gmap line value) :
  DATA received = Some data →
  let r := Convey_propagate sentry_call self sentry received w in
  match data !! receive_line self with
  | None | Some VNone => r = (Ok tt, w)
  | Some input =>
      r = invoke sentry_call sentry [input]
            {[ "line" := value_of_line (transmit_line self) ]} w
      ∧ events_since w r.2 =
          [Called sentry [input]
             {[ "line" := value_of_line (transmit_line self) ]}]
  end.
Proof.
  intros HD. unfold Convey_propagate, item. rewrite HD.
  cbn zeta. erewrite bind_ok by reflexivity.
  destruct (data !! receive_line self) as [[| | |]|]; cbn [default];
    try done; split; try done; apply invoke_events.
Qed.

(** The keyword argument [save] that [ModuleReport.propagate] builds. *)
Lemma invoke_with_fresh sentry args key v kwargs w :
  kwargs !! key = None →
  invoke_with sentry_call sentry args key v kwargs w =
    invoke sentry_call sentry args (<[key := v]> kwargs) w.
Proof. intros Hk. unfold invoke_with. by rewrite Hk. Qed.

Lemma invoke_with_repeated sentry args key v kwargs w :
  is_Some (kwargs !! key) →
  invoke_with sentry_call sentry args key v kwargs w = (Raise TypeError, w).
Proof. intros [x Hk]. unfold invoke_with. by rewrite Hk. Qed.

Lemma invoke_with_trace sentry args key v kwargs w :
  ∃ evs, trace (invoke_with sentry_call sentry args key v kwargs w).2 =
           trace w ++ evs.
Proof.
  unfold invoke_with. destruct (kwargs !! key).
  - exists []. by rewrite app_nil_r.
  - eexists. apply invoke_trace.
Qed.

Lemma ModuleReport_idle self w sentry received epoch :
  EPOCH received = Some epoch →
  py_mod epoch (report_interval self) ≠ Ok 0%Z →
  (ModuleReport_propagate sentry_call self sentry received w).2 = w.
Proof.
  intros HE Hmod. unfold ModuleReport_propagate, item. rewrite HE.
  erewrite bind_ok by reflexivity.
  destruct (py_mod epoch (report_interval self)) as [k|e] eqn:Hk.
  - erewrite bind_ok by reflexivity.
    destruct (decide (k = 0%Z)) as [->|Hne]; [done|]. by run.
  - by erewrite bind_raise by reflexivity.
Qed.

Lemma ModuleReport_fires self w sentry received epoch :
  EPOCH received = Some epoch →
  py_mod epoch (report_interval self) = Ok 0%Z →
  ModuleReport_propagate sentry_call self sentry received w =
    try_except
      (invoke_with sentry_call sentry (report_args self) "save"
         (report_save self epoch) (report_kwargs self))
      TypeError
      (invoke sentry_call sentry (report_args self) (report_kwargs self)) w.
Proof.
  intros HE Hmod. unfold ModuleReport_propagate, item. rewrite HE.
  erewrite bind_ok by reflexivity.
  erewrite bind_ok by (unfold lift; by rewrite Hmod).
  destruct (decide _); [|done]. by erewrite bind_ok by reflexivity.
Qed.

(** C5: on a message that has the key ['EPOCH'], [ModuleReport.propagate]
    calls the sentry exactly when [received['EPOCH'] % report_interval]
    evaluates to [0]; otherwise the world is left as it was.  When it
    fires and the call with the constructed [save] argument raises
    [TypeError] (the keyword is repeated, or the body rejects it), the
    run is the call with the same positional and keyword arguments and no
    [save], made from the world the failed call left; when the first call
    does not raise [TypeError], the run is that call. *)
Theorem C5_ModuleReport_interval_and_retry
    (self : ModuleReport) (w : world) (sentry : sid) (received : message)
    (epoch : Z) :
  EPOCH received = Some epoch →
  let r := ModuleReport_propagate sentry_call self sentry received w in
  let first :=
    invoke_with sentry_call sentry (report_args self) "save"
      (report_save self epoch) (report_kwargs self) w in
  let fires := py_mod epoch (report_interval self) = Ok 0%Z in
  (events_since w r.2 ≠ [] ↔ fires)
  ∧ (¬ fires → r.2 = w)
  ∧ (fires → first.1 = Raise TypeError →
       r = invoke sentry_call sentry (report_args self) (report_kwargs self)
             first.2)
  ∧ (fires → first.1 ≠ Raise TypeError → r = first).
Proof.
  intros HE. cbn zeta.
  set (first := invoke_with _ _ _ _ _ _ w).
  assert (Hretry : py_mod epoch (report_interval self) = Ok 0%Z →
            first.1 = Raise TypeError →
            ModuleReport_propagate sentry_call self sentry received w =
              invoke sentry_call sentry (report_args self)
                (report_kwargs self) first.2).
  { intros Hm Hf. rewrite (ModuleReport_fires _ _ _ _ _ HE Hm).
    unfold try_except. fold first. destruct first as [[|e] w1]; [done|].
    cbn in Hf. injection Hf as ->. by destruct (decide _). }
  assert (Hfirst : py_mod epoch (report_interval self) = Ok 0%Z →
            first.1 ≠ Raise TypeError →
            ModuleReport_propagate sentry_call self sentry received w =
              first).
  { intros Hm Hf. rewrite (ModuleReport_fires _ _ _ _ _ HE Hm).
    unfold try_except. fold first. destruct first as [[|e] w1]; [done|].
    destruct (decide _) as [->|]; [|done]. by destruct Hf. }
  split; [|split; [|split]]; try done.
  - split.
    + intros Hev. destruct (decide (py_mod epoch (report_interval self)
                                      = Ok 0%Z)) as [|Hno]; [done|].
      rewrite (ModuleReport_idle _ _ _ _ _ HE Hno) in Hev.
      unfold events_since in Hev. by rewrite drop_all in Hev.
    + intros Hm.
      destruct (invoke_with_trace sentry (report_args self) "save"
                  (report_save self epoch) (report_kwargs self) w)
        as [evs Hevs].
      fold first in Hevs.
      destruct (decide (first.1 = Raise TypeError)) as [Hf|Hf].
      * rewrite (Hretry Hm Hf).
        erewrite events_since_app
          by (rewrite invoke_trace, Hevs, <-(assoc_L (++)); done).
        by destruct evs.
      * rewrite (Hfirst Hm Hf). unfold first, invoke_with in *.
        destruct (report_kwargs self !! "save"); [by destruct Hf|].
        by rewrite invoke_events.
  - intros Hno. by apply ModuleReport_idle with epoch.
Qed.

End Calls.

(** ** ModuleReport: registration *)

Lemma load_Epochs_unbound w : load_name "Epochs" w = (Raise NameError, w).
Proof. reflexivity. Qed.

(** With nobody listened to, the check list is empty: the action is taken
    off the list and [ValueError] is raised. *)
Lemma register_trigger_not_listening self sentry w acts' :
  listening (objs w sentry) = [] →
  list_remove_first self (actions (objs w sentry)) = Some acts' →
  ModuleReport_register_trigger self sentry w =
    (Raise ValueError,
     World (<[sentry := set_actions acts' (objs w sentry)]> (objs w))
           (scratch w) (trace w)).
Proof.
  intros Hl Ha. unfold ModuleReport_register_trigger.
  erewrite bind_ok by reflexivity. rewrite Hl. cbn [for_each].
  erewrite bind_ok by reflexivity. cbn [existsb negb].
  erewrite bind_ok by reflexivity. rewrite Ha. by run.
Qed.

(** As soon as the sentry listens to anything, the first element of the
    comprehension loads the name [Epochs], which the module never binds. *)
Lemma register_trigger_listening self sentry w i rest :
  listening (objs w sentry) = i :: rest →
  ModuleReport_register_trigger self sentry w = (Raise NameError, w).
Proof.
  intros Hl. unfold ModuleReport_register_trigger.
  erewrite bind_ok by reflexivity. rewrite Hl. cbn [for_each].
  unfold epochs_check_elem at 1.
  by repeat erewrite bind_raise by apply load_Epochs_unbound.
Qed.

(** C4, evaluated where the code departs from it: the reporter listens to
    an [Epochs] instance and has the action in its list, yet registration
    raises [NameError] (and leaves the world as it was) instead of
    completing. *)
Theorem C4_register_trigger_raises_NameError :
  cls (objs registration_world 0) = Class "Epochs"
  ∧ listening (objs registration_world 1) = [0]
  ∧ actions (objs registration_world 1) = [7]
  ∧ ModuleReport_register_trigger 7 1 registration_world =
      (Raise NameError, registration_world).
Proof.
  do 3 (split; [reflexivity|]).
  by apply register_trigger_listening with 0 [].
Qed.

(** ** RecordLoss *)

Lemma buffer_append_run sentry name rhs w record x :
  epoch_buffer (objs w sentry) !! name = Some record →
  rhs w = (Ok x, w) →
  buffer_append sentry name rhs w =
    (Ok tt,
     World (<[sentry := set_epoch_buffer
                          (<[name := record ++ [x]]>
                             (epoch_buffer (objs w sentry)))
                          (objs w sentry)]> (objs w))
           (scratch w) (trace w)).
Proof.
  intros Hrec Hrhs. unfold buffer_append, getitem.
  erewrite bind_ok by reflexivity. rewrite Hrec.
  erewrite bind_ok by reflexivity. by erewrite bind_ok by apply Hrhs.
Qed.

Lemma buffer_append_missing sentry name rhs w :
  epoch_buffer (objs w sentry) !! name = None →
  buffer_append sentry name rhs w = (Raise KeyError, w).
Proof.
  intros Hrec. unfold buffer_append, getitem.
  erewrite bind_ok by reflexivity. rewrite Hrec.
  by erewrite bind_raise by reflexivity.
Qed.

Lemma truediv_4_2 : py_truediv 4 2 = Ok 2%float.
Proof. reflexivity. Qed.

(** C3, as amended: on a message with [LOSS = 4.0], [NAME = 'x'] and
    [NU = 2.0], for every sentry whose epoch buffer already holds a list
    under ['x'] and under ['x_norm'], [RecordLoss.propagate] returns
    normally, appends [4.0] to [epoch_buffer['x']] and [2.0] to
    [epoch_buffer['x_norm']], and changes no other entry of the buffer, no
    other field of the sentry and nothing else in the world. *)
Theorem C3_RecordLoss_scenario
    (w : world) (sentry : sid) (received : message) (xs ns : list float) :
  LOSS received = Some 4%float →
  NAME received = Some "x" →
  NU received = Some 2%float →
  epoch_buffer (objs w sentry) !! "x" = Some xs →
  epoch_buffer (objs w sentry) !! "x_norm" = Some ns →
  let r := RecordLoss_propagate sentry received w in
  let buffer := epoch_buffer (objs w sentry) in
  let buffer' := epoch_buffer (objs r.2 sentry) in
  r.1 = Ok tt
  ∧ buffer' !! "x" = Some (xs ++ [4%float])
  ∧ buffer' !! "x_norm" = Some (ns ++ [2%float])
  ∧ (∀ name, name ≠ "x" → name ≠ "x_norm" → buffer' !! name = buffer !! name)
  ∧ objs r.2 sentry = set_epoch_buffer buffer' (objs w sentry)
  ∧ same_but sentry w r.2.
Proof.
  intros HL HN HNU Hx Hn. cbn zeta. unfold RecordLoss_propagate, item.
  rewrite HN, HL, HNU. erewrite bind_ok by reflexivity.
  erewrite bind_ok by (by apply buffer_append_run).
  erewrite buffer_append_run; cycle 1.
  { cbn. rewrite fn_lookup_insert. cbn. rewrite lookup_insert_ne by done.
    apply Hn. }
  { erewrite bind_ok by reflexivity. erewrite bind_ok by reflexivity.
    unfold lift. by rewrite truediv_4_2. }
  cbn. rewrite !fn_lookup_insert. cbn.
  split; [done|]. split.
  { rewrite lookup_insert_ne by done. by rewrite lookup_insert_eq. }
  split; [by rewrite lookup_insert_eq|]. split.
  { intros name H1 H2. by rewrite !lookup_insert_ne. }
  split; [done|]. repeat split.
  intros o Hne. cbn. by rewrite !fn_lookup_insert_ne.
Qed.

(** ** ArchiveLoss *)

Section Archive.
Variable sentry : sid.

Lemma stage_loss_skip loss record staging w :
  len record = 0%Z →
  stage_loss sentry (loss, record) staging w = (Ok staging, w).
Proof. intros Hz. unfold stage_loss. by destruct (decide _). Qed.

Lemma stage_loss_take loss record staging w mean :
  staged_mean record = Some mean →
  stage_loss sentry (loss, record) staging w =
    (Ok (<[loss := mean]> staging),
     World (<[sentry := set_epoch_buffer
                          (<[loss := []]> (epoch_buffer (objs w sentry)))
                          (objs w sentry)]> (objs w))
           (scratch w) (trace w)).
Proof.
  unfold staged_mean, stage_loss, py_truediv_int.
  destruct (decide _); [done|]. intros [= <-]. by run.
Qed.

(** The first loop, over items with distinct names. *)
Lemma stage_loop items : ∀ staging w,
  NoDup items.*1 →
  ∃ w' staging' buffer',
    for_each items (stage_loss sentry) staging w = (Ok staging', w')
    ∧ same_but sentry w w'
    ∧ objs w' sentry = set_epoch_buffer buffer' (objs w sentry)
    ∧ (∀ k, buffer' !! k =
         match (list_to_map items : gmap string (list float)) !! k with
         | Some record =>
             if decide (len record = 0%Z)
             then epoch_buffer (objs w sentry) !! k else Some []
         | None => epoch_buffer (objs w sentry) !! k
         end)
    ∧ (∀ k, staging' !! k =
         match (list_to_map items : gmap string (list float)) !! k with
         | Some record =>
             match staged_mean record with
             | Some mean => Some mean
             | None => staging !! k
             end
         | None => staging !! k
         end).
Proof.
  induction items as [|[loss record] rest IH]; intros staging w Hnd.
  - exists w, staging, (epoch_buffer (objs w sentry)).
    split; [done|]. split; [apply same_but_refl|].
    split; [by destruct (objs w sentry)|]. by split; intros k.
  - apply NoDup_cons in Hnd as [Hfresh Hnd].
    assert (Hnone : (list_to_map rest : gmap string (list float)) !! loss
                    = None) by by apply not_elem_of_list_to_map_1.
    cbn [for_each list_to_map foldr].
    destruct (decide (len record = 0%Z)) as [Hz|Hnz].
    + erewrite bind_ok by by apply stage_loss_skip.
      destruct (IH staging w Hnd)
        as (w' & staging' & buffer' & Hrun & Hsame & Hobj & Hbuf & Hst).
      exists w', staging', buffer'. do 3 (split; [done|]).
      split; intros k; [rewrite Hbuf|rewrite Hst];
        (destruct (decide (k = loss)) as [->|Hne];
         [rewrite lookup_insert_eq, Hnone|by rewrite lookup_insert_ne]).
      * by destruct (decide _).
      * unfold staged_mean. by destruct (decide _).
    + assert (Hm : ∃ mean, staged_mean record = Some mean).
      { unfold staged_mean. destruct (decide _); [done|by eexists]. }
      destruct Hm as [mean Hm].
      erewrite bind_ok by by apply stage_loss_take.
      match goal with |- context [for_each rest _ ?st ?w1] =>
        destruct (IH st w1 Hnd)
          as (w' & staging' & buffer' & Hrun & Hsame & Hobj & Hbuf & Hst)
      end.
      exists w', staging', buffer'. split; [done|].
      split.
      { eapply same_but_trans; [|apply Hsame].
        apply (same_but_assign sentry
                 (λ s, set_epoch_buffer
                         (<[loss := []]> (epoch_buffer s)) s) w). }
      cbn in Hobj, Hbuf. rewrite fn_lookup_insert in Hobj, Hbuf.
      cbn in Hobj, Hbuf.
      split; [done|].
      split; intros k; [rewrite Hbuf|rewrite Hst];
        (destruct (decide (k = loss)) as [->|Hne];
         [rewrite !lookup_insert_eq, Hnone
         |by rewrite !lookup_insert_ne by done]).
      * by destruct (decide _).
      * cbn [snd]. by rewrite Hm.
Qed.

Lemma archive_loss_run staging loss record w old :
  archive (objs w sentry) !! loss = Some old →
  archive_loss sentry staging (loss, record) tt w =
    (Ok tt,
     World (<[sentry := set_archive
                          (<[loss := old ++ [default PrimFloat.nan
                                               (staging !! loss)]]>
                             (archive (objs w sentry)))
                          (objs w sentry)]> (objs w))
           (scratch w) (trace w)).
Proof.
  intros Hold. unfold archive_loss, getitem.
  erewrite bind_ok by reflexivity. rewrite Hold. by run.
Qed.

(** The second loop, over items with distinct names that the archive
    has. *)
Lemma archive_loop staging items : ∀ w,
  NoDup items.*1 →
  (∀ k, k ∈ items.*1 → is_Some (archive (objs w sentry) !! k)) →
  ∃ w' arch',
    for_each items (archive_loss sentry staging) tt w = (Ok tt, w')
    ∧ same_but sentry w w'
    ∧ objs w' sentry = set_archive arch' (objs w sentry)
    ∧ (∀ k, arch' !! k =
         if decide (k ∈ items.*1)
         then (λ old, old ++ [default PrimFloat.nan (staging !! k)])
                <$> archive (objs w sentry) !! k
         else archive (objs w sentry) !! k).
Proof.
  induction items as [|[loss record] rest IH]; intros w Hnd Hin.
  - exists w, (archive (objs w sentry)).
    split; [done|]. split; [apply same_but_refl|].
    split; [by destruct (objs w sentry)|].
    intros k. destruct (decide _) as [Hk|]; [|done]. by inversion Hk.
  - apply NoDup_cons in Hnd as [Hfresh Hnd].
    destruct (Hin loss) as [old Hold]; [cbn; left|].
    cbn [for_each]. erewrite bind_ok by by apply archive_loss_run.
    match goal with |- context [for_each rest _ tt ?w1] =>
      destruct (IH w1 Hnd) as (w' & arch' & Hrun & Hsame & Hobj & Harch)
    end.
    { intros k Hk. cbn. rewrite fn_lookup_insert. cbn.
      rewrite lookup_insert_ne by (intros ->; done).
      apply Hin. cbn. by right. }
    exists w', arch'. split; [done|].
    split.
    { eapply same_but_trans; [|apply Hsame].
      apply (same_but_assign sentry
               (λ s, set_archive
                       (<[loss := old ++ [default PrimFloat.nan
                                            (staging !! loss)]]>
                          (archive s)) s) w). }
    cbn in Hobj, Harch. rewrite fn_lookup_insert in Hobj, Harch.
    cbn in Hobj, Harch.
    split; [done|]. intros k. rewrite Harch.
    destruct (decide (k = loss)) as [->|Hne].
    + rewrite decide_False by done. rewrite decide_True by (cbn; left).
      by rewrite lookup_insert_eq, Hold.
    + rewrite lookup_insert_ne by done.
      destruct (decide (k ∈ rest.*1)) as [Hk|Hk].
      * by rewrite decide_True by (cbn; by right).
      * rewrite decide_False; [done|]. cbn. intros Hc.
        apply elem_of_cons in Hc as [?|?]; done.
Qed.

End Archive.

(** [ArchiveLoss.propagate] never raises, and in closed form: every
    buffered record is emptied, and unless nothing was staged every
    archived name gets one entry. *)
Lemma ArchiveLoss_closed_form (sentry : sid) (received : message) (w : world) :
  let buffer := epoch_buffer (objs w sentry) in
  let arch := archive (objs w sentry) in
  ∃ w',
    ArchiveLoss_propagate sentry received w = (Ok tt, w')
    ∧ same_but sentry w w'
    ∧ objs w' sentry =
        set_archive
          (if decide (staged buffer = ∅) then arch
           else archived (staged buffer) arch)
          (set_epoch_buffer ((λ _, []) <$> buffer) (objs w sentry)).
Proof.
  cbn zeta. unfold ArchiveLoss_propagate.
  erewrite bind_ok by reflexivity.
  destruct (stage_loop sentry (map_to_list (epoch_buffer (objs w sentry)))
              ∅ w (NoDup_fst_map_to_list _))
    as (w1 & staging & buffer' & Hrun & Hsame & Hobj & Hbuf & Hst).
  erewrite bind_ok by apply Hrun.
  assert (Hstaged : staging = staged (epoch_buffer (objs w sentry))).
  { apply map_eq. intros k. rewrite Hst, list_to_map_to_list.
    unfold staged. rewrite lookup_omap.
    destruct (epoch_buffer (objs w sentry) !! k) as [record|]; cbn;
      [by destruct (staged_mean record)|done]. }
  assert (Hbuffer : buffer' = (λ _, []) <$> epoch_buffer (objs w sentry)).
  { apply map_eq. intros k. rewrite Hbuf, list_to_map_to_list, lookup_fmap.
    destruct (epoch_buffer (objs w sentry) !! k) as [record|] eqn:Hk;
      cbn; [|done].
    destruct (decide _) as [Hz|]; [|done].
    destruct record; [done|]. unfold len in Hz. cbn in Hz. lia. }
  subst staging buffer'.
  destruct (decide (size (staged (epoch_buffer (objs w sentry))) = 0))
    as [Hsz|Hsz].
  - apply map_size_empty_iff in Hsz. exists w1.
    split; [done|]. split; [done|]. rewrite Hobj.
    rewrite decide_True by done. by destruct (objs w sentry).
  - assert (Hne : staged (epoch_buffer (objs w sentry)) ≠ ∅)
      by (by rewrite <-map_size_empty_iff).
    erewrite bind_ok by reflexivity.
    assert (Harch1 : archive (objs w1 sentry) = archive (objs w sentry))
      by by rewrite Hobj.
    destruct (archive_loop sentry (staged (epoch_buffer (objs w sentry)))
                (map_to_list (archive (objs w1 sentry))) w1
                (NoDup_fst_map_to_list _))
      as (w2 & arch' & Hrun2 & Hsame2 & Hobj2 & Harch).
    { intros k Hk. apply list_elem_of_fmap in Hk as [[k' old] [-> Hk]].
      apply elem_of_map_to_list in Hk. by exists old. }
    exists w2. split; [done|].
    split; [by eapply same_but_trans|].
    rewrite Hobj2, Hobj, decide_False by done. f_equal.
    apply map_eq. intros k. rewrite Harch. unfold archived.
    rewrite map_lookup_imap, Harch1.
    destruct (archive (objs w sentry) !! k) as [old|] eqn:Hk; cbn.
    + rewrite decide_True; [done|].
      apply list_elem_of_fmap. exists (k, old). split; [done|].
      by apply elem_of_map_to_list.
    + by destruct (decide _).
Qed.

Lemma staged_mean_nil : staged_mean [] = None.
Proof. reflexivity. Qed.

Lemma staged_scenario :
  staged {[ "mse" := [1%float; 2%float; 3%float] ]} = {[ "mse" := 2%float ]}.
Proof.
  unfold staged. rewrite omap_singleton_Some with (y := 2%float); done.
Qed.

Lemma dom_archived staging (arch : gmap string (list float)) :
  dom (archived staging arch) = dom arch.
Proof.
  apply set_eq. intros k. rewrite !elem_of_dom. unfold archived.
  rewrite map_lookup_imap. destruct (arch !! k); cbn; [|done].
  split; intros _; by eexists.
Qed.

(** When every buffered record is empty the first loop writes nothing. *)
Lemma stage_loop_idle sentry items : ∀ staging w,
  (∀ loss record, (loss, record) ∈ items → record = []) →
  for_each items (stage_loss sentry) staging w = (Ok staging, w).
Proof.
  induction items as [|[loss record] rest IH]; intros staging w Hall; [done|].
  cbn [for_each]. erewrite bind_ok.
  - apply IH. intros l r Hin. apply (Hall l). by right.
  - apply stage_loss_skip. by rewrite (Hall loss record) by left.
Qed.

(** C1, as amended: for every sentry whose epoch buffer is
    [{'mse': [1.0, 2.0, 3.0]}] and whose archive already tracks ['mse'],
    [ArchiveLoss.propagate] on a message that has the key ['EPOCH'] returns
    normally, [archive['mse']] gains exactly one new entry, [2.0], and the
    epoch buffer becomes [{'mse': []}]. *)
Theorem C1_ArchiveLoss_scenario
    (w : world) (sentry : sid) (received : message) (old : list float) :
  is_Some (EPOCH received) →
  epoch_buffer (objs w sentry) = {[ "mse" := [1%float; 2%float; 3%float] ]} →
  archive (objs w sentry) !! "mse" = Some old →
  let r := ArchiveLoss_propagate sentry received w in
  r.1 = Ok tt
  ∧ archive (objs r.2 sentry) !! "mse" = Some (old ++ [2%float])
  ∧ epoch_buffer (objs r.2 sentry) !! "mse" = Some []
  ∧ epoch_buffer (objs r.2 sentry) = {[ "mse" := [] ]}.
Proof.
  intros _ Hbuf Hold. cbn zeta.
  destruct (ArchiveLoss_closed_form sentry received w)
    as (w' & Hrun & _ & Hobj).
  rewrite Hrun. cbn [fst snd]. rewrite Hobj, Hbuf, staged_scenario.
  cbn [archive epoch_buffer set_archive set_epoch_buffer].
  split; [done|]. split.
  - rewrite decide_False by apply map_non_empty_singleton.
    unfold archived. rewrite map_lookup_imap, Hold. cbn.
    by rewrite lookup_singleton_eq.
  - by rewrite map_fmap_singleton, lookup_singleton_eq.
Qed.

(** C8: on a message that has the key ['EPOCH'], [ArchiveLoss.propagate]
    returns normally and the archive has the same keys after the call as
    before; a buffered loss name that is not a key of the archive has its
    epoch-buffer entry emptied and still has no archive entry, so its mean
    is dropped without an error. *)
Theorem C8_ArchiveLoss_never_adds_archive_keys
    (w : world) (sentry : sid) (received : message) :
  is_Some (EPOCH received) →
  let r := ArchiveLoss_propagate sentry received w in
  r.1 = Ok tt
  ∧ dom (archive (objs r.2 sentry)) = dom (archive (objs w sentry))
  ∧ (∀ loss record,
       epoch_buffer (objs w sentry) !! loss = Some record →
       archive (objs w sentry) !! loss = None →
       epoch_buffer (objs r.2 sentry) !! loss = Some []
       ∧ archive (objs r.2 sentry) !! loss = None).
Proof.
  intros _. cbn zeta.
  destruct (ArchiveLoss_closed_form sentry received w)
    as (w' & Hrun & _ & Hobj).
  rewrite Hrun. cbn [fst snd]. rewrite Hobj.
  cbn [archive epoch_buffer set_archive set_epoch_buffer].
  split; [done|]. split.
  - destruct (decide _); [done|apply dom_archived].
  - intros loss record Hrec Hnone. split.
    + by rewrite lookup_fmap, Hrec.
    + destruct (decide _); [done|].
      apply not_elem_of_dom. rewrite dom_archived.
      by apply not_elem_of_dom.
Qed.

(** C9: when every list of the epoch buffer is empty, [ArchiveLoss.propagate]
    on a message that has the key ['EPOCH'] returns at once and the world is
    exactly as before: the archive keeps every list as it was, with no NaN
    and no other entry appended, also under the names it tracks. *)
Theorem C9_ArchiveLoss_nothing_buffered
    (w : world) (sentry : sid) (received : message) :
  is_Some (EPOCH received) →
  (∀ loss record,
     epoch_buffer (objs w sentry) !! loss = Some record → record = []) →
  let r := ArchiveLoss_propagate sentry received w in
  r = (Ok tt, w)
  ∧ archive (objs r.2 sentry) = archive (objs w sentry).
Proof.
  intros _ Hall. cbn zeta.
  assert (Hrun : ArchiveLoss_propagate sentry received w = (Ok tt, w)).
  { unfold ArchiveLoss_propagate. erewrite bind_ok by reflexivity.
    erewrite bind_ok.
    2:{ apply stage_loop_idle. intros loss record Hin.
        apply elem_of_map_to_list in Hin. by apply (Hall loss). }
    by rewrite map_size_empty. }
  by rewrite Hrun.
Qed.

(** ** PropagateMultiplierFromRecursiveTransform *)

Section Multiplier.
Variable listen : sid → message → store → store.
Variable transform : float → float.
Variable self : aid.

Lemma recursive_turn_run s w :
  let m := message_update_NU (transform (nu (objs w s))) (scratch w self) in
  recursive_turn listen transform self s tt w =
    (Ok tt,
     World (listen s m (objs w)) (<[self := m]> (scratch w))
           (trace w ++ [Listened s m])).
Proof.
  cbn zeta. unfold recursive_turn, update_message_NU, deliver. run.
  by rewrite fn_lookup_insert.
Qed.

Lemma recursive_loop ls : ∀ w,
  ∃ ms w',
    for_each ls (recursive_turn listen transform self) tt w = (Ok tt, w')
    ∧ length ms = length ls
    ∧ trace w' = trace w ++ zip_with Listened ls ms
    ∧ objs w' = store_after listen (zip ls ms) (objs w)
    ∧ (∀ i s m, ls !! i = Some s → ms !! i = Some m →
         NU m = Some (transform
                        (nu (store_after listen (take i (zip ls ms))
                               (objs w) s)))).
Proof.
  induction ls as [|s rest IH]; intros w.
  - exists [], w. split; [done|]. split; [done|].
    split; [by rewrite app_nil_r|]. split; [done|]. by intros [|i].
  - cbn [for_each]. erewrite bind_ok by apply recursive_turn_run.
    match goal with |- context [for_each rest _ tt ?w1] =>
      destruct (IH w1) as (ms & w' & Hrun & Hlen & Htr & Hobj & Hnu)
    end.
    cbn [objs trace] in *.
    eexists (_ :: ms), w'. split; [done|]. split; [cbn; by rewrite Hlen|].
    split; [by rewrite Htr, <-(assoc_L (++))|]. split; [done|].
    intros [|i] s' m Hs Hm.
    + cbn in Hs, Hm. injection Hs as <-. by injection Hm as <-.
    + cbn in Hs, Hm. cbn. by apply Hnu.
Qed.

(** C6: on a message that has the key ['EPOCH'], the action delivers one
    message to each listener of the sentry, in the order of the listener
    list, and nothing else; the ['NU'] entry of the message handed to the
    [i]-th listener is the transform of that listener's own [nu] as it
    stands in the store the earlier deliveries have produced. *)
Theorem C6_recursive_transform_per_listener
    (w : world) (sentry : sid) (received : message) :
  is_Some (EPOCH received) →
  let r :=
    PropagateMultiplierFromRecursiveTransform_propagate listen transform
      self sentry received w in
  let ls := listeners (objs w sentry) in
  ∃ ms : list message,
    r.1 = Ok tt
    ∧ length ms = length ls
    ∧ events_since w r.2 = zip_with Listened ls ms
    ∧ (∀ i s m, ls !! i = Some s → ms !! i = Some m →
         NU m = Some (transform
                        (nu (store_after listen (take i (zip ls ms))
                               (objs w) s)))).
Proof.
  intros _. cbn zeta.
  unfold PropagateMultiplierFromRecursiveTransform_propagate.
  erewrite bind_ok by reflexivity.
  destruct (recursive_loop (listeners (objs w sentry)) w)
    as (ms & w' & Hrun & Hlen & Htr & _ & Hnu).
  exists ms. rewrite Hrun. cbn [fst snd].
  split; [done|]. split; [done|]. split; [|done].
  by apply events_since_app.
Qed.

End Multiplier.

(** * The properties at concrete inputs *)

Lemma C7_UpdateMultiplier_witness :
  let r := UpdateMultiplier_propagate 0 (nu_message 3) blank_world in
  r.1 = Ok tt ∧ nu (objs r.2 0) = 3%float.
Proof.
  pose proof (C7_UpdateMultiplier_sets_only_nu blank_world 0 (nu_message 3)
                3%float eq_refl) as (Hok & Hnu & _).
  exact (conj Hok Hnu).
Defined.

Lemma C2_BatchRelease_witness :
  let step :=
    count_then_release (λ _ st, st) {| batch_size := 10 |} 0
      (batch_message 4) in
  events_since blank_world (step (step (step blank_world).2).2).2
    = [Released 0]
  ∧ batched (objs (step (step (step blank_world).2).2).2 0) = 0%Z.
Proof.
  pose proof (C2_BatchRelease_scenario (λ _ st, st) blank_world 0 eq_refl)
    as (_ & _ & _ & _ & _ & Hev & Hb).
  exact (conj Hev Hb).
Defined.

Lemma C3_RecordLoss_witness :
  let w := archive_world {[ "x" := [1%float]; "x_norm" := [] ]} ∅ in
  let r := RecordLoss_propagate 0 loss_message w in
  r.1 = Ok tt
  ∧ epoch_buffer (objs r.2 0) !! "x" = Some [1%float; 4%float]
  ∧ epoch_buffer (objs r.2 0) !! "x_norm" = Some [2%float].
Proof.
  pose proof (C3_RecordLoss_scenario
                (archive_world {[ "x" := [1%float]; "x_norm" := [] ]} ∅)
                0 loss_message [1%float] []
                eq_refl eq_refl eq_refl eq_refl eq_refl)
    as (Hok & Hx & Hn & _).
  exact (conj Hok (conj Hx Hn)).
Defined.

(** C3 as stated fails: a sentry whose epoch buffer has no entry for
    ['x'] raises [KeyError], and nothing is appended anywhere. *)
Lemma C3_RecordLoss_counterexample :
  let r := RecordLoss_propagate 0 loss_message blank_world in
  r = (Raise KeyError, blank_world)
  ∧ epoch_buffer (objs r.2 0) !! "x" = None
  ∧ epoch_buffer (objs r.2 0) !! "x_norm" = None.
Proof. by repeat split. Qed.

Lemma C1_ArchiveLoss_witness :
  let w := archive_world {[ "mse" := [1%float; 2%float; 3%float] ]}
                         {[ "mse" := [7%float] ]} in
  let r := ArchiveLoss_propagate 0 (epoch_message 1) w in
  r.1 = Ok tt
  ∧ archive (objs r.2 0) !! "mse" = Some [7%float; 2%float]
  ∧ epoch_buffer (objs r.2 0) !! "mse" = Some [].
Proof.
  pose proof (C1_ArchiveLoss_scenario
                (archive_world {[ "mse" := [1%float; 2%float; 3%float] ]}
                               {[ "mse" := [7%float] ]})
                0 (epoch_message 1) [7%float]
                (ex_intro _ 1%Z eq_refl) eq_refl eq_refl)
    as (Hok & Harch & Hbuf & _).
  exact (conj Hok (conj Harch Hbuf)).
Defined.

(** C1 as stated fails: with the epoch buffer [{'mse': [1.0, 2.0, 3.0]}]
    and an archive that does not track ['mse'], the call returns normally
    and the archive still has no entry for ['mse']: no [2.0] was gained. *)
Lemma C1_ArchiveLoss_counterexample :
  let w := archive_world {[ "mse" := [1%float; 2%float; 3%float] ]} ∅ in
  let r := ArchiveLoss_propagate 0 (epoch_message 1) w in
  epoch_buffer (objs w 0) = {[ "mse" := [1%float; 2%float; 3%float] ]}
  ∧ r.1 = Ok tt
  ∧ archive (objs r.2 0) !! "mse" = None.
Proof. by repeat split. Qed.

Lemma C8_ArchiveLoss_witness :
  let w := archive_world {[ "mse" := [1%float]; "val" := [2%float] ]}
                         {[ "val" := [] ]} in
  let r := ArchiveLoss_propagate 0 (epoch_message 1) w in
  dom (archive (objs r.2 0)) = dom (archive (objs w 0))
  ∧ epoch_buffer (objs r.2 0) !! "mse" = Some []
  ∧ archive (objs r.2 0) !! "mse" = None.
Proof.
  pose proof (C8_ArchiveLoss_never_adds_archive_keys
                (archive_world {[ "mse" := [1%float]; "val" := [2%float] ]}
                               {[ "val" := [] ]})
                0 (epoch_message 1) (ex_intro _ 1%Z eq_refl))
    as (_ & Hdom & Hdrop).
  exact (conj Hdom (Hdrop "mse" [1%float] eq_refl eq_refl)).
Defined.

Lemma C9_ArchiveLoss_witness :
  let w := archive_world {[ "mse" := [] ]} {[ "mse" := [7%float] ]} in
  let r := ArchiveLoss_propagate 0 (epoch_message 1) w in
  r = (Ok tt, w) ∧ archive (objs r.2 0) = archive (objs w 0).
Proof.
  apply (C9_ArchiveLoss_nothing_buffered
           (archive_world {[ "mse" := [] ]} {[ "mse" := [7%float] ]})
           0 (epoch_message 1) (ex_intro _ 1%Z eq_refl)).
  intros loss record Hrec. cbn in Hrec.
  apply lookup_singleton_Some in Hrec as [_ <-]. reflexivity.
Defined.

Lemma C10_Convey_witness :
  let r := Convey_propagate accepts_all in_to_out 0 data_message blank_world in
  r = invoke accepts_all 0 [VInt 5] {[ "line" := VStr "out" ]} blank_world
  ∧ events_since blank_world r.2
      = [Called 0 [VInt 5] {[ "line" := VStr "out" ]}].
Proof.
  exact (C10_Convey_forwards_only_present_input accepts_all in_to_out
           blank_world 0 data_message {[ Some "in" := VInt 5 ]} eq_refl).
Defined.

Lemma C5_ModuleReport_witness :
  let first :=
    invoke_with rejects_save 0 [] "save" (VStr "out_epoch-10.png") ∅
      blank_world in
  first.1 = Raise TypeError
  ∧ ModuleReport_propagate rejects_save every_fifth 0 (epoch_message 10)
      blank_world
    = invoke rejects_save 0 [] ∅ first.2.
Proof.
  pose proof (C5_ModuleReport_interval_and_retry rejects_save every_fifth
                blank_world 0 (epoch_message 10) 10%Z eq_refl)
    as (_ & _ & Hretry & _).
  exact (conj eq_refl (Hretry eq_refl eq_refl)).
Defined.

Lemma C6_recursive_transform_witness :
  let r :=
    PropagateMultiplierFromRecursiveTransform_propagate updating_listener
      halve 0 0 (epoch_message 1) schedule_world in
  ∃ ms : list message,
    r.1 = Ok tt
    ∧ length ms = 2
    ∧ events_since schedule_world r.2 = zip_with Listened [1; 2] ms
    ∧ (∀ i s m, [1; 2] !! i = Some s → ms !! i = Some m →
         NU m = Some (halve
                        (nu (store_after updating_listener
                               (take i (zip [1; 2] ms))
                               (objs schedule_world) s)))).
Proof.
  exact (C6_recursive_transform_per_listener updating_listener halve 0
           schedule_world 0 (epoch_message 1) (ex_intro _ 1%Z eq_refl)).
Defined.

(** The two listeners of the schedule are handed different multipliers,
    each the half of its own. *)
Example recursive_transform_not_shared :
  events_since schedule_world
    (PropagateMultiplierFromRecursiveTransform_propagate updating_listener
       halve 0 0 (epoch_message 1) schedule_world).2
  = [Listened 1 (nu_message 0.5); Listened 2 (nu_message 4)].
Proof. reflexivity. Qed.

(** * Further properties of the actions *)

(** ** RecordLoss, for any name and values *)

Lemma string_length_app (s1 s2 : string) :
  String.length (s1 +:+ s2) = String.length s1 + String.length s2.
Proof.
  induction s1 as [|a s1 IH]; [done|].
  change (S (String.length (s1 +:+ s2))
          = S (String.length s1 + String.length s2)).
  by rewrite IH.
Qed.

Lemma name_norm_fresh (name : string) : name ≠ name +:+ "_norm".
Proof.
  intros Heq. apply (f_equal String.length) in Heq.
  rewrite string_length_app in Heq. cbn in Heq. lia.
Qed.

Lemma RecordLoss_first_append sentry received name loss w xs :
  NAME received = Some name →
  LOSS received = Some loss →
  epoch_buffer (objs w sentry) !! name = Some xs →
  RecordLoss_propagate sentry received w =
    buffer_append sentry (name +:+ "_norm")
      (loss ← item LOSS received;
       nu ← item NU received;
       lift (py_truediv loss nu))
      (World (<[sentry := set_epoch_buffer
                            (<[name := xs ++ [loss]]>
                               (epoch_buffer (objs w sentry)))
                            (objs w sentry)]> (objs w))
             (scratch w) (trace w)).
Proof.
  intros HN HL Hx. unfold RecordLoss_propagate, item. rewrite HN, HL.
  erewrite bind_ok by reflexivity.
  erewrite bind_ok; [done|].
  by apply buffer_append_run.
Qed.

(** X1: for any loss name, loss and non-zero multiplier, when the epoch
    buffer has an entry for the name and for the name with the suffix
    [_norm], [RecordLoss.propagate] returns normally, appends the loss to
    the first and the loss divided by the multiplier to the second, and
    changes nothing else. *)
Theorem X1_RecordLoss_appends_loss_and_normalised
    (w : world) (sentry : sid) (received : message) (name : string)
    (loss mult : float) (xs ns : list float) :
  NAME received = Some name →
  LOSS received = Some loss →
  NU received = Some mult →
  PrimFloat.eqb mult 0%float = false →
  epoch_buffer (objs w sentry) !! name = Some xs →
  epoch_buffer (objs w sentry) !! (name +:+ "_norm") = Some ns →
  let r := RecordLoss_propagate sentry received w in
  r.1 = Ok tt
  ∧ objs r.2 sentry =
      set_epoch_buffer
        (<[name +:+ "_norm" := ns ++ [PrimFloat.div loss mult]]>
           (<[name := xs ++ [loss]]> (epoch_buffer (objs w sentry))))
        (objs w sentry)
  ∧ same_but sentry w r.2.
Proof.
  intros HN HL HNU Hnz Hx Hn. cbn zeta.
  rewrite (RecordLoss_first_append _ _ _ _ _ _ HN HL Hx).
  erewrite buffer_append_run with (x := PrimFloat.div loss mult); cycle 1.
  { cbn. rewrite fn_lookup_insert. cbn.
    rewrite lookup_insert_ne by apply name_norm_fresh. apply Hn. }
  { unfold item. rewrite HL, HNU. erewrite bind_ok by reflexivity.
    erewrite bind_ok by reflexivity. unfold lift, py_truediv.
    by rewrite Hnz. }
  cbn. rewrite !fn_lookup_insert. cbn. split; [done|]. split; [done|].
  repeat split. intros o Hne. cbn. by rewrite !fn_lookup_insert_ne.
Qed.

(** X2: when the epoch buffer has no entry for the received name,
    [RecordLoss.propagate] raises [KeyError] and the world is exactly as
    before. *)
Theorem X2_RecordLoss_unknown_name
    (w : world) (sentry : sid) (received : message) (name : string) :
  NAME received = Some name →
  epoch_buffer (objs w sentry) !! name = None →
  RecordLoss_propagate sentry received w = (Raise KeyError, w).
Proof.
  intros HN Hx. unfold RecordLoss_propagate, item. rewrite HN.
  erewrite bind_ok by reflexivity.
  by erewrite bind_raise by by apply buffer_append_missing.
Qed.

(** X3: the two appends are not atomic.  When the buffer has an entry for
    the name but none for the name with the suffix [_norm],
    [RecordLoss.propagate] raises [KeyError] after the loss has been
    appended under the name: that entry is extended and stays so. *)
Theorem X3_RecordLoss_missing_norm_entry
    (w : world) (sentry : sid) (received : message) (name : string)
    (loss : float) (xs : list float) :
  NAME received = Some name →
  LOSS received = Some loss →
  epoch_buffer (objs w sentry) !! name = Some xs →
  epoch_buffer (objs w sentry) !! (name +:+ "_norm") = None →
  let r := RecordLoss_propagate sentry received w in
  r.1 = Raise KeyError
  ∧ epoch_buffer (objs r.2 sentry) =
      <[name := xs ++ [loss]]> (epoch_buffer (objs w sentry)).
Proof.
  intros HN HL Hx Hn. cbn zeta.
  rewrite (RecordLoss_first_append _ _ _ _ _ _ HN HL Hx).
  rewrite buffer_append_missing.
  - cbn. by rewrite fn_lookup_insert.
  - cbn. rewrite fn_lookup_insert. cbn.
    by rewrite lookup_insert_ne by apply name_norm_fresh.
Qed.

(** X4: a multiplier equal to zero makes the normalisation raise
    [ZeroDivisionError]; the loss itself has been appended by then, and
    the normalised list is left as it was. *)
Theorem X4_RecordLoss_zero_multiplier
    (w : world) (sentry : sid) (received : message) (name : string)
    (loss mult : float) (xs ns : list float) :
  NAME received = Some name →
  LOSS received = Some loss →
  NU received = Some mult →
  PrimFloat.eqb mult 0%float = true →
  epoch_buffer (objs w sentry) !! name = Some xs →
  epoch_buffer (objs w sentry) !! (name +:+ "_norm") = Some ns →
  let r := RecordLoss_propagate sentry received w in
  r.1 = Raise ZeroDivisionError
  ∧ epoch_buffer (objs r.2 sentry) =
      <[name := xs ++ [loss]]> (epoch_buffer (objs w sentry))
  ∧ epoch_buffer (objs r.2 sentry) !! (name +:+ "_norm") = Some ns.
Proof.
  intros HN HL HNU Hz Hx Hn. cbn zeta.
  rewrite (RecordLoss_first_append _ _ _ _ _ _ HN HL Hx).
  unfold buffer_append, getitem. erewrite bind_ok by reflexivity.
  cbn [objs]. rewrite fn_lookup_insert. cbn [epoch_buffer set_epoch_buffer].
  rewrite lookup_insert_ne by apply name_norm_fresh. rewrite Hn.
  erewrite bind_ok by reflexivity.
  erewrite bind_raise.
  2:{ unfold item. rewrite HL, HNU. erewrite bind_ok by reflexivity.
      erewrite bind_ok by reflexivity. unfold lift, py_truediv.
      by rewrite Hz. }
  cbn. rewrite fn_lookup_insert. cbn. split; [done|]. split; [done|].
  by rewrite lookup_insert_ne by apply name_norm_fresh.
Qed.

(** ** ArchiveLoss, for any buffer and archive *)

Lemma ArchiveLoss_idle sentry received w :
  (∀ loss record,
     epoch_buffer (objs w sentry) !! loss = Some record → record = []) →
  ArchiveLoss_propagate sentry received w = (Ok tt, w).
Proof.
  intros Hall. unfold ArchiveLoss_propagate.
  erewrite bind_ok by reflexivity. erewrite bind_ok.
  2:{ apply stage_loop_idle. intros loss record Hin.
      apply elem_of_map_to_list in Hin. by apply (Hall loss). }
  by rewrite map_size_empty.
Qed.

Lemma staged_lookup (buffer : gmap string (list float)) name :
  staged buffer !! name = buffer !! name ≫= staged_mean.
Proof. unfold staged. apply lookup_omap. Qed.

Lemma staged_mean_cons x record :
  staged_mean (x :: record) =
    Some (PrimFloat.div (py_sum (x :: record))
            (float_of_Z (len (x :: record)))).
Proof.
  unfold staged_mean. destruct (decide _) as [Hz|]; [|done].
  unfold len in Hz. cbn in Hz. lia.
Qed.

(** X5: [ArchiveLoss.propagate] never raises, whatever the message and
    the state of the sentry.  Afterwards the epoch buffer has the same
    names and every list in it is empty; the multiplier, the counter and
    the references of the sentry, and everything outside the sentry, are
    untouched. *)
Theorem X5_ArchiveLoss_returns_and_empties_buffer
    (w : world) (sentry : sid) (received : message) :
  let r := ArchiveLoss_propagate sentry received w in
  let s := objs w sentry in
  let s' := objs r.2 sentry in
  r.1 = Ok tt
  ∧ dom (epoch_buffer s') = dom (epoch_buffer s)
  ∧ (∀ name record, epoch_buffer s' !! name = Some record → record = [])
  ∧ nu s' = nu s ∧ batched s' = batched s ∧ cls s' = cls s
  ∧ listeners s' = listeners s ∧ listening s' = listening s
  ∧ actions s' = actions s
  ∧ same_but sentry w r.2.
Proof.
  cbn zeta.
  destruct (ArchiveLoss_closed_form sentry received w)
    as (w' & Hrun & Hsame & Hobj).
  rewrite Hrun. cbn [fst snd]. rewrite Hobj.
  cbn [archive epoch_buffer set_archive set_epoch_buffer nu batched cls
       listeners listening actions].
  split; [done|]. split; [apply dom_fmap_L|]. split; [|done].
  intros name record. rewrite lookup_fmap.
  destruct (epoch_buffer (objs w sentry) !! name); cbn; congruence.
Qed.

(** X6: when at least one buffered record is non-empty, every name the
    archive tracks gains exactly one entry: the mean of its buffered
    values ([sum(record) / len(record)]) when it has some, and NaN when
    its record is empty or the buffer does not know the name. *)
Theorem X6_ArchiveLoss_one_entry_per_tracked_name
    (w : world) (sentry : sid) (received : message)
    (some_name : string) (some_record : list float)
    (name : string) (old : list float) :
  epoch_buffer (objs w sentry) !! some_name = Some some_record →
  some_record ≠ [] →
  archive (objs w sentry) !! name = Some old →
  let r := ArchiveLoss_propagate sentry received w in
  archive (objs r.2 sentry) !! name =
    Some (old ++
            [match epoch_buffer (objs w sentry) !! name with
             | Some (x :: record) =>
                 PrimFloat.div (py_sum (x :: record))
                   (float_of_Z (len (x :: record)))
             | _ => PrimFloat.nan
             end]).
Proof.
  intros Hsome Hne Hold. cbn zeta.
  destruct (ArchiveLoss_closed_form sentry received w)
    as (w' & Hrun & _ & Hobj).
  rewrite Hrun. cbn [fst snd]. rewrite Hobj.
  cbn [archive set_archive].
  rewrite decide_False.
  2:{ intros Hempty.
      assert (Hl : staged (epoch_buffer (objs w sentry)) !! some_name = None)
        by by rewrite Hempty.
      rewrite staged_lookup, Hsome in Hl. cbn in Hl.
      destruct some_record; [done|]. by rewrite staged_mean_cons in Hl. }
  unfold archived. rewrite map_lookup_imap, Hold. cbn.
  rewrite staged_lookup.
  destruct (epoch_buffer (objs w sentry) !! name) as [[|x record]|]; cbn;
    [done| |done].
  by rewrite staged_mean_cons.
Qed.


(** X8: archiving twice in a row archives once: the first call empties
    the buffer, so a second call right after it returns at once and leaves
    the world the first call produced. *)
Theorem X8_ArchiveLoss_twice_is_once
    (w : world) (sentry : sid) (received received' : message) :
  let r1 := ArchiveLoss_propagate sentry received w in
  ArchiveLoss_propagate sentry received' r1.2 = (Ok tt, r1.2).
Proof.
  cbn zeta. apply ArchiveLoss_idle.
  destruct (ArchiveLoss_closed_form sentry received w)
    as (w' & Hrun & _ & Hobj).
  rewrite Hrun. cbn [snd]. rewrite Hobj.
  cbn [epoch_buffer set_archive set_epoch_buffer].
  intros loss record. rewrite lookup_fmap.
  destruct (epoch_buffer (objs w sentry) !! loss); cbn; congruence.
Qed.

(** ** CountBatches and BatchRelease, for any count and threshold *)

Lemma CountBatches_counts sentry received count w :
  BATCH received = Some count →
  CountBatches_propagate sentry received w =
    (Ok tt,
     World (<[sentry := set_batched (batched (objs w sentry) + count)
                          (objs w sentry)]> (objs w))
           (scratch w) (trace w)).
Proof.
  intros HB. unfold CountBatches_propagate, item. rewrite HB. by run.
Qed.

(** X9: one round of [CountBatches] followed by [BatchRelease], for any
    count and any positive batch size.  [release()] is invoked exactly when
    the counter plus the count reaches the batch size, the counter is then
    [0], and otherwise it is the sum; either way the counter is below the
    batch size when the round ends. *)
Theorem X9_count_then_release_round
    (release : sid → store → store) (self : BatchRelease)
    (w : world) (sentry : sid) (received : message) (count : Z) :
  BATCH received = Some count →
  (0 < batch_size self)%Z →
  let r := count_then_release release self sentry received w in
  let total := (batched (objs w sentry) + count)%Z in
  r.1 = Ok tt
  ∧ events_since w r.2 =
      (if decide (batch_size self ≤ total)%Z then [Released sentry] else [])
  ∧ batched (objs r.2 sentry) =
      (if decide (batch_size self ≤ total)%Z then 0%Z else total)
  ∧ (batched (objs r.2 sentry) < batch_size self)%Z.
Proof.
  intros HB Hpos. cbn zeta. unfold count_then_release.
  erewrite bind_ok by by apply CountBatches_counts.
  match goal with |- context [BatchRelease_propagate _ _ _ _ ?w0] =>
    set (w1 := w0)
  end.
  assert (Hb : batched (objs w1 sentry)
               = (batched (objs w sentry) + count)%Z)
    by (unfold w1; cbn; by rewrite fn_lookup_insert).
  destruct (decide (batch_size self ≤ batched (objs w sentry) + count)%Z)
    as [Hge|Hlt].
  - rewrite BatchRelease_reached by (rewrite Hb; lia).
    cbn [fst snd objs trace]. rewrite fn_lookup_insert. cbn.
    split; [done|]. split; [by apply events_since_app|]. split; [done|lia].
  - rewrite BatchRelease_below by (rewrite Hb; lia).
    cbn [fst snd]. rewrite Hb. split; [done|].
    split; [apply events_since_app; by rewrite app_nil_r|].
    split; [done|lia].
Qed.

(** ** Propagating a multiplier to the listeners *)

Section Propagation.
Variable listen : sid → message → store → store.
Variable self : aid.

Lemma item_present {A} (key : message → option A) received (v : A) w :
  key received = Some v → item key received w = (Ok v, w).
Proof. intros Hk. unfold item. by rewrite Hk. Qed.

Lemma deliver_loop ls : ∀ w,
  for_each ls (λ s _, deliver listen self s) tt w =
    (Ok tt,
     World (store_after listen ((λ s, (s, scratch w self)) <$> ls) (objs w))
           (scratch w)
           (trace w ++ ((λ s, Listened s (scratch w self)) <$> ls))).
Proof.
  induction ls as [|s rest IH]; intros w.
  - cbn. rewrite app_nil_r. by destruct w.
  - cbn [for_each]. erewrite bind_ok by reflexivity. rewrite IH.
    cbn. by rewrite <-(assoc_L (++)).
Qed.

(** X10: on a message with an epoch, [PropagateMultiplierFromEpochTransform]
    computes the transform of the epoch once, binds it to ['NU'] in its
    scratch message, and hands that one message to every listener, in the
    order of the listener list. *)
Theorem X10_epoch_transform_one_message_for_all
    (transform : Z → float) (w : world) (sentry : sid) (received : message)
    (epoch : Z) :
  EPOCH received = Some epoch →
  let r :=
    PropagateMultiplierFromEpochTransform_propagate listen transform self
      sentry received w in
  let m := message_update_NU (transform epoch) (scratch w self) in
  let ls := listeners (objs w sentry) in
  r.1 = Ok tt
  ∧ NU m = Some (transform epoch)
  ∧ events_since w r.2 = (λ s, Listened s m) <$> ls
  ∧ objs r.2 = store_after listen ((λ s, (s, m)) <$> ls) (objs w)
  ∧ scratch r.2 self = m.
Proof.
  intros HE. cbn zeta.
  unfold PropagateMultiplierFromEpochTransform_propagate, item. rewrite HE.
  erewrite bind_ok by reflexivity. erewrite bind_ok by reflexivity.
  erewrite bind_ok by reflexivity. rewrite deliver_loop.
  cbn [fst snd objs scratch trace]. rewrite fn_lookup_insert.
  split; [done|]. split; [done|]. split; [|done].
  by apply events_since_app.
Qed.

(** X11: without an epoch in the message the epoch transform raises
    [KeyError] before anything is computed: no listener is notified, and
    neither the scratch message nor any sentry changes. *)
Theorem X11_epoch_transform_needs_epoch
    (transform : Z → float) (w : world) (sentry : sid) (received : message) :
  EPOCH received = None →
  PropagateMultiplierFromEpochTransform_propagate listen transform self
    sentry received w = (Raise KeyError, w).
Proof.
  intros HE. unfold PropagateMultiplierFromEpochTransform_propagate, item.
  rewrite HE. by erewrite bind_raise by reflexivity.
Qed.

Lemma reset_turn_run received base s w :
  NU_BASE received = Some base →
  let m := message_update_NU base (scratch w self) in
  (b ← item NU_BASE received;
   update_message_NU self b;;
   deliver listen self s) w =
    (Ok tt,
     World (listen s m (objs w)) (<[self := m]> (scratch w))
           (trace w ++ [Listened s m])).
Proof.
  intros HB. cbn zeta. erewrite bind_ok by by apply item_present.
  erewrite bind_ok by reflexivity. unfold deliver. cbn.
  by rewrite fn_lookup_insert.
Qed.

Lemma reset_loop received base ls : ∀ w,
  NU_BASE received = Some base →
  let m := message_update_NU base (scratch w self) in
  ∃ w',
    for_each ls (λ s _,
      b ← item NU_BASE received;
      update_message_NU self b;;
      deliver listen self s) tt w = (Ok tt, w')
    ∧ trace w' = trace w ++ ((λ s, Listened s m) <$> ls)
    ∧ objs w' = store_after listen ((λ s, (s, m)) <$> ls) (objs w)
    ∧ (ls ≠ [] → scratch w' self = m).
Proof.
  induction ls as [|s rest IH]; intros w HB; cbn zeta.
  - exists w. split; [done|]. split; [by rewrite app_nil_r|]. by split.
  - cbn [for_each]. erewrite bind_ok by by apply reset_turn_run.
    match goal with |- context [for_each rest _ tt ?w0] =>
      destruct (IH w0 HB) as (w' & Hrun & Htr & Hobj & Hsc)
    end.
    cbn [objs scratch trace] in Htr, Hobj, Hsc.
    rewrite fn_lookup_insert in Htr, Hobj, Hsc. cbn in Htr, Hobj, Hsc.
    exists w'. split; [done|].
    split; [by rewrite Htr, <-(assoc_L (++))|]. split; [done|].
    intros _. destruct rest as [|s' rest'].
    + cbn in Hrun. injection Hrun as <-. cbn. by rewrite fn_lookup_insert.
    + by apply Hsc.
Qed.

(** X12: on a message with a base value, [ResetMultiplier] hands every
    listener, in the order of the listener list, the scratch message with
    ['NU'] bound to [received['NU_BASE']]. *)
Theorem X12_ResetMultiplier_rebroadcasts_base
    (w : world) (sentry : sid) (received : message) (base : float) :
  NU_BASE received = Some base →
  let r := ResetMultiplier_propagate listen self sentry received w in
  let m := message_update_NU base (scratch w self) in
  let ls := listeners (objs w sentry) in
  r.1 = Ok tt
  ∧ NU m = Some base
  ∧ events_since w r.2 = (λ s, Listened s m) <$> ls
  ∧ objs r.2 = store_after listen ((λ s, (s, m)) <$> ls) (objs w).
Proof.
  intros HB. cbn zeta. unfold ResetMultiplier_propagate.
  erewrite bind_ok by reflexivity.
  destruct (reset_loop received base (listeners (objs w sentry)) w HB)
    as (w' & Hrun & Htr & Hobj & _).
  rewrite Hrun. cbn [fst snd]. split; [done|]. split; [done|].
  split; [by apply events_since_app|done].
Qed.

(** X13: the base value is looked up inside the loop over the listeners.
    Without ['NU_BASE'] in the message, [ResetMultiplier] returns normally
    when the sentry has no listener, and raises [KeyError] before the
    first delivery when it has one; the world is unchanged either way. *)
Theorem X13_ResetMultiplier_without_base
    (w : world) (sentry : sid) (received : message) :
  NU_BASE received = None →
  ResetMultiplier_propagate listen self sentry received w =
    (match listeners (objs w sentry) with
     | [] => Ok tt
     | _ :: _ => Raise KeyError
     end, w).
Proof.
  intros HB. unfold ResetMultiplier_propagate.
  erewrite bind_ok by reflexivity.
  destruct (listeners (objs w sentry)) as [|s rest]; [done|].
  cbn [for_each]. unfold item. rewrite HB.
  by repeat erewrite bind_raise by reflexivity.
Qed.

End Propagation.

(** *** Listeners that update their multiplier *)

Lemma updating_listener_NU s m st v :
  NU m = Some v →
  updating_listener s m st = <[s := set_nu v (st s)]> st.
Proof.
  intros HNU. unfold updating_listener, UpdateMultiplier_propagate, item.
  by rewrite HNU.
Qed.

Lemma store_after_updating m v ls : ∀ (st : store) s,
  NU m = Some v →
  store_after updating_listener ((λ s, (s, m)) <$> ls) st s =
    if decide (s ∈ ls) then set_nu v (st s) else st s.
Proof.
  induction ls as [|h rest IH]; intros st s HNU.
  - cbn. rewrite decide_False; [done|]. by intros ?%elem_of_nil.
  - cbn [fmap list_fmap store_after foldl fst snd].
    rewrite updating_listener_NU with (v := v) by done.
    unfold store_after in IH. rewrite IH by done.
    destruct (decide (s = h)) as [->|Hne].
    + rewrite fn_lookup_insert. rewrite (decide_True (P := h ∈ h :: rest))
        by left. by destruct (decide _).
    + rewrite fn_lookup_insert_ne by done.
      destruct (decide (s ∈ rest)) as [Hin|Hin].
      * by rewrite decide_True by by right.
      * rewrite decide_False; [done|].
        intros [?|?]%elem_of_cons; done.
Qed.

(** X14: an epoch schedule over listeners that run [UpdateMultiplier].
    After [PropagateMultiplierFromEpochTransform] has run on a message with
    an epoch, every listener of the sentry has [nu] equal to the transform
    of the epoch and is otherwise as before, and every sentry that is not
    a listener is untouched. *)
Theorem X14_epoch_schedule_sets_every_listener
    (transform : Z → float) (self : aid) (w : world) (sentry : sid)
    (received : message) (epoch : Z) (s : sid) :
  EPOCH received = Some epoch →
  let r :=
    PropagateMultiplierFromEpochTransform_propagate updating_listener
      transform self sentry received w in
  r.1 = Ok tt
  ∧ objs r.2 s =
      if decide (s ∈ listeners (objs w sentry))
      then set_nu (transform epoch) (objs w s)
      else objs w s.
Proof.
  intros HE. cbn zeta.
  unfold PropagateMultiplierFromEpochTransform_propagate, item. rewrite HE.
  erewrite bind_ok by reflexivity. erewrite bind_ok by reflexivity.
  erewrite bind_ok by reflexivity. rewrite deliver_loop.
  cbn [fst snd objs scratch]. rewrite fn_lookup_insert.
  split; [done|]. by apply store_after_updating.
Qed.

Lemma recursive_updating_loop transform self ls : ∀ w,
  let r :=
    for_each ls (recursive_turn updating_listener transform self) tt w in
  r.1 = Ok tt
  ∧ ∀ s, objs r.2 s =
      set_nu (Nat.iter (count_occ Nat.eq_dec ls s) transform
                (nu (objs w s)))
             (objs w s).
Proof.
  induction ls as [|h rest IH]; intros w; cbn zeta.
  - split; [done|]. intros s. cbn. by destruct (objs w s).
  - cbn [for_each].
    erewrite bind_ok by apply recursive_turn_run.
    match goal with |- context [for_each rest _ tt ?w0] =>
      destruct (IH w0) as [Hok Hobj]
    end.
    split; [done|]. intros s. rewrite Hobj. cbn [objs].
    rewrite updating_listener_NU
      with (v := transform (nu (objs w h))) by done.
    cbn [count_occ]. destruct (Nat.eq_dec h s) as [->|Hne].
    + rewrite fn_lookup_insert. cbn [nu set_nu].
      by rewrite Nat.iter_succ_r.
    + by rewrite fn_lookup_insert_ne.
Qed.

(** X15: a recursive schedule over listeners that run [UpdateMultiplier].
    After [PropagateMultiplierFromRecursiveTransform] has run, a sentry
    that occurs [k] times in the listener list has had the transform
    applied [k] times to its own [nu] (once for a listener registered
    once, not at all for a sentry that is no listener), and is otherwise
    as before. *)
Theorem X15_recursive_schedule_transforms_each_listener
    (transform : float → float) (self : aid) (w : world) (sentry : sid)
    (received : message) (s : sid) :
  let r :=
    PropagateMultiplierFromRecursiveTransform_propagate updating_listener
      transform self sentry received w in
  let k := count_occ Nat.eq_dec (listeners (objs w sentry)) s in
  r.1 = Ok tt
  ∧ objs r.2 s = set_nu (Nat.iter k transform (nu (objs w s))) (objs w s).
Proof.
  cbn zeta. unfold PropagateMultiplierFromRecursiveTransform_propagate.
  erewrite bind_ok by reflexivity.
  destruct (recursive_updating_loop transform self
              (listeners (objs w sentry)) w) as [Hok Hobj].
  split; [done|]. apply Hobj.
Qed.

(** ** ModuleReport, for any interval *)

Lemma py_mod_zero_iff (a b : Z) :
  b ≠ 0%Z → (py_mod a b = Ok 0%Z ↔ (b | a)%Z).
Proof.
  intros Hb. unfold py_mod. rewrite decide_False by done.
  rewrite <-Z.mod_divide by done. split; [by intros [= ->]|by intros ->].
Qed.

Lemma py_mod_by_zero (a : Z) : py_mod a 0 = Raise ZeroDivisionError.
Proof. reflexivity. Qed.

Section Reports.
Variable sentry_call :
  sid → list value → gmap string value → store → outcome unit * store.

Lemma report_attempt_events sentry args save kwargs w :
  events_since w
    (try_except (invoke_with sentry_call sentry args "save" save kwargs)
       TypeError (invoke sentry_call sentry args kwargs) w).2 ≠ [].
Proof.
  unfold try_except, invoke_with.
  destruct (kwargs !! "save") as [x|] eqn:Hk.
  - unfold raise. cbn -[invoke]. rewrite decide_True by done.
    by rewrite invoke_events.
  - pose proof (invoke_trace sentry_call sentry args
                  (<["save" := save]> kwargs) w) as Htr.
    destruct (invoke sentry_call sentry args (<["save" := save]> kwargs) w)
      as [[|e] w1] eqn:Hfirst; cbn in Htr.
    + cbn. by erewrite events_since_app by done.
    + destruct (decide (e = TypeError)) as [->|Hne].
      * erewrite events_since_app; [|by rewrite invoke_trace, Htr,
                                         <-(assoc_L (++))]. done.
      * cbn. by erewrite events_since_app by done.
Qed.

(** X16: with a non-zero report interval, [ModuleReport.propagate] calls
    the sentry exactly on the epochs the interval divides; this includes
    epoch [0] and, with Python's sign convention for [%], negative
    epochs and negative intervals. *)
Theorem X16_ModuleReport_fires_on_multiples
    (self : ModuleReport) (w : world) (sentry : sid) (received : message)
    (epoch : Z) :
  EPOCH received = Some epoch →
  report_interval self ≠ 0%Z →
  let r := ModuleReport_propagate sentry_call self sentry received w in
  events_since w r.2 ≠ [] ↔ (report_interval self | epoch)%Z.
Proof.
  intros HE Hnz. cbn zeta. rewrite <-py_mod_zero_iff by done. split.
  - intros Hev.
    destruct (decide (py_mod epoch (report_interval self) = Ok 0%Z))
      as [|Hno]; [done|].
    rewrite (ModuleReport_idle sentry_call _ _ _ _ _ HE Hno) in Hev.
    unfold events_since in Hev. by rewrite drop_all in Hev.
  - intros Hm. rewrite (ModuleReport_fires sentry_call _ _ _ _ _ HE Hm).
    apply report_attempt_events.
Qed.

(** X17: a report interval of zero makes every epoch message raise
    [ZeroDivisionError]; the sentry is never called and the world is
    unchanged. *)
Theorem X17_ModuleReport_zero_interval
    (self : ModuleReport) (w : world) (sentry : sid) (received : message)
    (epoch : Z) :
  EPOCH received = Some epoch →
  report_interval self = 0%Z →
  ModuleReport_propagate sentry_call self sentry received w =
    (Raise ZeroDivisionError, w).
Proof.
  intros HE Hz. unfold ModuleReport_propagate, item.
  rewrite HE, Hz. erewrite bind_ok by reflexivity.
  rewrite py_mod_by_zero. by erewrite bind_raise by reflexivity.
Qed.

End Reports.

(** *** Paths that carry the epoch *)

Lemma string_app_inj_r (t s1 s2 : string) :
  s1 +:+ t = s2 +:+ t → s1 = s2.
Proof.
  revert s2. induction s1 as [|a s1 IH]; intros [|b s2] Heq.
  - done.
  - apply (f_equal String.length) in Heq.
    rewrite !string_length_app in Heq. cbn in Heq. lia.
  - apply (f_equal String.length) in Heq.
    rewrite !string_length_app in Heq. cbn in Heq. lia.
  - change (String a (s1 +:+ t) = String b (s2 +:+ t)) in Heq.
    injection Heq as -> Heq. f_equal. by apply IH.
Qed.

Lemma epoch_path_inj (root suffix : string) (e1 e2 : Z) :
  root +:+ "_epoch-" +:+ pretty e1 +:+ suffix
  = root +:+ "_epoch-" +:+ pretty e2 +:+ suffix →
  e1 = e2.
Proof.
  intros Heq. apply (inj (String.app root)) in Heq.
  apply (inj (String.app "_epoch-")) in Heq.
  apply string_app_inj_r in Heq. by apply (inj pretty) in Heq.
Qed.


(** ** ModuleReport: registration, for any sentry *)

Lemma list_remove_first_absent x xs :
  x ∉ xs → list_remove_first x xs = None.
Proof.
  induction xs as [|y rest IH]; intros Hnin; [done|]. cbn.
  rewrite decide_False by (intros ->; apply Hnin; left).
  rewrite IH; [done|]. intros Hin. apply Hnin. by right.
Qed.

Lemma list_remove_first_present x xs :
  x ∈ xs →
  ∃ before after,
    xs = before ++ x :: after
    ∧ (x ∉ before)
    ∧ list_remove_first x xs = Some (before ++ after).
Proof.
  induction xs as [|y rest IH]; intros Hin; [by apply elem_of_nil in Hin|].
  cbn. destruct (decide (y = x)) as [->|Hne].
  - exists [], rest. split; [done|]. split; [apply not_elem_of_nil|done].
  - apply elem_of_cons in Hin as [->|Hin]; [done|].
    destruct (IH Hin) as (before & after & -> & Hfresh & ->).
    exists (y :: before), after. split; [done|]. split; [|done].
    intros [->|?]%elem_of_cons; done.
Qed.

(** X19: as the module stands, [ModuleReport._register_trigger] never
    returns normally.  With an empty listening list it raises [ValueError]
    (and the world is unchanged when the action is not in the list of
    actions, since [list.remove] raises the same error); as soon as the
    sentry listens to anything it raises [NameError] and the world is
    unchanged. *)
Theorem X19_register_trigger_always_raises
    (self : aid) (sentry : sid) (w : world) :
  let r := ModuleReport_register_trigger self sentry w in
  match listening (objs w sentry) with
  | [] =>
      r.1 = Raise ValueError
      ∧ (self ∉ actions (objs w sentry) → r.2 = w)
  | _ :: _ => r = (Raise NameError, w)
  end.
Proof.
  cbn zeta. destruct (listening (objs w sentry)) as [|i rest] eqn:Hl.
  - destruct (decide (self ∈ actions (objs w sentry))) as [Hin|Hnin].
    + destruct (list_remove_first_present _ _ Hin)
        as (before & after & _ & _ & Hrm).
      by rewrite (register_trigger_not_listening _ _ _ _ Hl Hrm).
    + unfold ModuleReport_register_trigger.
      erewrite bind_ok by reflexivity. rewrite Hl. cbn [for_each].
      erewrite bind_ok by reflexivity. cbn [existsb negb].
      erewrite bind_ok by reflexivity.
      by rewrite list_remove_first_absent.
  - by apply register_trigger_listening with i rest.
Qed.

(** X20: when the sentry listens to nothing and the action is in its
    list of actions, registration removes the first occurrence of the
    action, keeps the other actions in their order, changes nothing else
    of the sentry, and raises [ValueError]. *)
Theorem X20_register_trigger_removes_first_occurrence
    (self : aid) (sentry : sid) (w : world) :
  listening (objs w sentry) = [] →
  self ∈ actions (objs w sentry) →
  let r := ModuleReport_register_trigger self sentry w in
  ∃ before after,
    actions (objs w sentry) = before ++ self :: after
    ∧ (self ∉ before)
    ∧ r.1 = Raise ValueError
    ∧ objs r.2 sentry = set_actions (before ++ after) (objs w sentry)
    ∧ same_but sentry w r.2.
Proof.
  intros Hl Hin. cbn zeta.
  destruct (list_remove_first_present _ _ Hin)
    as (before & after & Hsplit & Hfresh & Hrm).
  exists before, after.
  rewrite (register_trigger_not_listening _ _ _ _ Hl Hrm).
  cbn [fst snd objs]. rewrite fn_lookup_insert.
  do 4 (split; [done|]).
  repeat split. intros o Hne. cbn. by rewrite fn_lookup_insert_ne.
Qed.

(** ** ModuleSave and WriteTSV *)

(** X21: with a non-zero save interval, [ModuleSave.propagate] asks for
    exactly one checkpoint, of its module and at the path
    [<save_root>_epoch-<epoch><save_format>], on the epochs the interval
    divides, and for none on the others; it leaves the world alone. *)
Theorem X21_ModuleSave_checkpoints_on_multiples
    (self : ModuleSave.t) (w : world) (sentry : sid) (received : message)
    (epoch : Z) :
  EPOCH received = Some epoch →
  ModuleSave.save_interval self ≠ 0%Z →
  let r := ModuleSave.propagate self sentry received w in
  ((ModuleSave.save_interval self | epoch)%Z →
     r = (Ok [TorchSave (ModuleSave.module self)
                (ModuleSave.save_root self +:+ "_epoch-" +:+ pretty epoch
                   +:+ ModuleSave.save_format self)], w))
  ∧ (¬ (ModuleSave.save_interval self | epoch)%Z → r = (Ok [], w)).
Proof.
  intros HE Hnz. cbn zeta. unfold ModuleSave.propagate, item. rewrite HE.
  erewrite bind_ok by reflexivity.
  unfold py_mod. rewrite decide_False by done.
  erewrite bind_ok by reflexivity.
  destruct (decide (epoch `mod` ModuleSave.save_interval self = 0)%Z)
    as [Hm|Hm].
  - split; [by run|]. intros Hnd. destruct Hnd. by apply Z.mod_divide.
  - split; [|done]. intros Hd. destruct Hm. by apply Z.mod_divide.
Qed.

Lemma ModuleSave_write self sentry received w epoch f :
  EPOCH received = Some epoch →
  f ∈ writes_of (ModuleSave.propagate self sentry received w) →
  f = TorchSave (ModuleSave.module self) (ModuleSave.save_path self epoch).
Proof.
  intros HE. unfold writes_of, ModuleSave.propagate, item. rewrite HE.
  erewrite bind_ok by reflexivity.
  destruct (py_mod epoch (ModuleSave.save_interval self)) as [k|e].
  - erewrite bind_ok by reflexivity. destruct (decide (k = 0%Z)).
    + cbn. by intros ->%list_elem_of_singleton.
    + cbn. by intros ?%elem_of_nil.
  - erewrite bind_raise by reflexivity. cbn. by intros ?%elem_of_nil.
Qed.

(** X22: checkpoints of different epochs never share a path: when two
    runs of [ModuleSave.propagate], on messages with the epochs [e1] and
    [e2], each write a file and the two paths are equal, then
    [e1 = e2]. *)
Theorem X22_ModuleSave_one_path_per_epoch
    (self : ModuleSave.t) (sentry1 sentry2 : sid)
    (received1 received2 : message) (w1 w2 : world) (e1 e2 : Z)
    (f1 f2 : file_write) :
  EPOCH received1 = Some e1 →
  EPOCH received2 = Some e2 →
  f1 ∈ writes_of (ModuleSave.propagate self sentry1 received1 w1) →
  f2 ∈ writes_of (ModuleSave.propagate self sentry2 received2 w2) →
  written_path f1 = written_path f2 →
  e1 = e2.
Proof.
  intros HE1 HE2 Hf1 Hf2.
  rewrite (ModuleSave_write _ _ _ _ _ _ HE1 Hf1),
          (ModuleSave_write _ _ _ _ _ _ HE2 Hf2).
  cbn. apply epoch_path_inj.
Qed.

Lemma WriteTSV_write self sentry received w epoch f :
  EPOCH received = Some epoch →
  f ∈ writes_of (WriteTSV.propagate self sentry received w) →
  f = ToCsv sentry
        (if WriteTSV.overwrite self
         then WriteTSV.save_root self +:+ ".tsv"
         else WriteTSV.save_root self +:+ "_epoch-" +:+ pretty epoch
                +:+ ".tsv").
Proof.
  intros HE. unfold writes_of, WriteTSV.propagate, item. rewrite HE.
  erewrite bind_ok by reflexivity.
  destruct (py_mod epoch (WriteTSV.save_interval self)) as [k|e].
  - erewrite bind_ok by reflexivity. destruct (decide (k = 0%Z)).
    + destruct (WriteTSV.overwrite self); cbn;
        by intros ->%list_elem_of_singleton.
    + cbn. by intros ?%elem_of_nil.
  - erewrite bind_raise by reflexivity. cbn. by intros ?%elem_of_nil.
Qed.

(** X23: with [overwrite=True], every table [WriteTSV.propagate] writes
    goes to the one path [<save_root>.tsv], whatever the epoch: each
    write replaces the previous one. *)
Theorem X23_WriteTSV_overwrite_single_path
    (self : WriteTSV.t) (sentry : sid) (received : message) (w : world)
    (epoch : Z) (f : file_write) :
  WriteTSV.overwrite self = true →
  EPOCH received = Some epoch →
  f ∈ writes_of (WriteTSV.propagate self sentry received w) →
  f = ToCsv sentry (WriteTSV.save_root self +:+ ".tsv").
Proof.
  intros Hover HE Hf. rewrite (WriteTSV_write _ _ _ _ _ _ HE Hf).
  by rewrite Hover.
Qed.

(** X24: with [overwrite=False], tables of different epochs never share
    a path: two writes with equal paths come from the same epoch. *)
Theorem X24_WriteTSV_one_path_per_epoch
    (self : WriteTSV.t) (sentry1 sentry2 : sid)
    (received1 received2 : message) (w1 w2 : world) (e1 e2 : Z)
    (f1 f2 : file_write) :
  WriteTSV.overwrite self = false →
  EPOCH received1 = Some e1 →
  EPOCH received2 = Some e2 →
  f1 ∈ writes_of (WriteTSV.propagate self sentry1 received1 w1) →
  f2 ∈ writes_of (WriteTSV.propagate self sentry2 received2 w2) →
  written_path f1 = written_path f2 →
  e1 = e2.
Proof.
  intros Hover HE1 HE2 Hf1 Hf2.
  rewrite (WriteTSV_write _ _ _ _ _ _ HE1 Hf1),
          (WriteTSV_write _ _ _ _ _ _ HE2 Hf2), Hover.
  cbn. apply epoch_path_inj.
Qed.

(** * The further properties at concrete inputs *)

Lemma X1_RecordLoss_witness :
  let w := archive_world {[ "mse" := [1%float]; "mse_norm" := [] ]} ∅ in
  let r := RecordLoss_propagate 0 mse_message w in
  r.1 = Ok tt
  ∧ objs r.2 0 =
      set_epoch_buffer
        {[ "mse" := [1%float; 3%float]; "mse_norm" := [0.75%float] ]}
        (objs w 0).
Proof.
  pose proof (X1_RecordLoss_appends_loss_and_normalised
                (archive_world {[ "mse" := [1%float]; "mse_norm" := [] ]} ∅)
                0 mse_message "mse" 3%float 4%float [1%float] []
                eq_refl eq_refl eq_refl eq_refl eq_refl eq_refl)
    as (Hok & Hobj & _).
  split; [exact Hok|]. rewrite Hobj. reflexivity.
Defined.

Lemma X2_RecordLoss_witness :
  RecordLoss_propagate 0 mse_message blank_world = (Raise KeyError, blank_world).
Proof.
  exact (X2_RecordLoss_unknown_name blank_world 0 mse_message "mse"
           eq_refl eq_refl).
Defined.

Lemma X3_RecordLoss_witness :
  let w := archive_world {[ "mse" := [1%float] ]} ∅ in
  let r := RecordLoss_propagate 0 mse_message w in
  r.1 = Raise KeyError
  ∧ epoch_buffer (objs r.2 0) =
      <["mse" := [1%float] ++ [3%float]]> (epoch_buffer (objs w 0)).
Proof.
  exact (X3_RecordLoss_missing_norm_entry
           (archive_world {[ "mse" := [1%float] ]} ∅)
           0 mse_message "mse" 3%float [1%float]
           eq_refl eq_refl eq_refl eq_refl).
Defined.

Lemma X4_RecordLoss_witness :
  let w := archive_world {[ "mse" := [1%float]; "mse_norm" := [] ]} ∅ in
  let r := RecordLoss_propagate 0 mse_message_zero_nu w in
  r.1 = Raise ZeroDivisionError
  ∧ epoch_buffer (objs r.2 0) !! "mse_norm" = Some [].
Proof.
  pose proof (X4_RecordLoss_zero_multiplier
                (archive_world {[ "mse" := [1%float]; "mse_norm" := [] ]} ∅)
                0 mse_message_zero_nu "mse" 3%float 0%float [1%float] []
                eq_refl eq_refl eq_refl eq_refl eq_refl eq_refl)
    as (Hraise & _ & Hnorm).
  exact (conj Hraise Hnorm).
Defined.

Lemma X6_ArchiveLoss_witness :
  let w := archive_world {[ "mse" := [1%float; 2%float; 3%float] ]}
                         {[ "mse" := [7%float]; "val" := [8%float] ]} in
  let r := ArchiveLoss_propagate 0 (epoch_message 1) w in
  archive (objs r.2 0) !! "val" = Some [8%float; PrimFloat.nan].
Proof.
  exact (X6_ArchiveLoss_one_entry_per_tracked_name
           (archive_world {[ "mse" := [1%float; 2%float; 3%float] ]}
                          {[ "mse" := [7%float]; "val" := [8%float] ]})
           0 (epoch_message 1) "mse" [1%float; 2%float; 3%float]
           "val" [8%float] eq_refl ltac:(discriminate) eq_refl).
Defined.


Lemma X9_count_then_release_witness :
  let r :=
    count_then_release (λ _ st, st) {| batch_size := 10 |} 0
      (batch_message 12) blank_world in
  r.1 = Ok tt
  ∧ events_since blank_world r.2 = [Released 0]
  ∧ batched (objs r.2 0) = 0%Z.
Proof.
  pose proof (X9_count_then_release_round (λ _ st, st)
                {| batch_size := 10 |} blank_world 0 (batch_message 12)
                12%Z eq_refl eq_refl)
    as (Hok & Hev & Hb & _).
  exact (conj Hok (conj Hev Hb)).
Defined.

Lemma X10_epoch_transform_witness :
  let r :=
    PropagateMultiplierFromEpochTransform_propagate updating_listener
      linear 0 0 (epoch_message 3) schedule_world in
  r.1 = Ok tt
  ∧ events_since schedule_world r.2
      = [Listened 1 (nu_message 3); Listened 2 (nu_message 3)].
Proof.
  pose proof (X10_epoch_transform_one_message_for_all updating_listener 0
                linear schedule_world 0 (epoch_message 3) 3%Z eq_refl)
    as (Hok & _ & Hev & _).
  exact (conj Hok Hev).
Defined.

Lemma X11_epoch_transform_witness :
  PropagateMultiplierFromEpochTransform_propagate updating_listener linear
    0 0 (nu_message 1) schedule_world = (Raise KeyError, schedule_world).
Proof.
  exact (X11_epoch_transform_needs_epoch updating_listener 0 linear
           schedule_world 0 (nu_message 1) eq_refl).
Defined.

Lemma X12_ResetMultiplier_witness :
  let r :=
    ResetMultiplier_propagate updating_listener 0 0 (base_message 5)
      schedule_world in
  r.1 = Ok tt
  ∧ events_since schedule_world r.2
      = [Listened 1 (nu_message 5); Listened 2 (nu_message 5)].
Proof.
  pose proof (X12_ResetMultiplier_rebroadcasts_base updating_listener 0
                schedule_world 0 (base_message 5) 5%float eq_refl)
    as (Hok & _ & Hev & _).
  exact (conj Hok Hev).
Defined.

Lemma X13_ResetMultiplier_witness :
  ResetMultiplier_propagate updating_listener 0 0 (epoch_message 1)
    schedule_world = (Raise KeyError, schedule_world)
  ∧ ResetMultiplier_propagate updating_listener 0 0 (epoch_message 1)
      blank_world = (Ok tt, blank_world).
Proof.
  split.
  - exact (X13_ResetMultiplier_without_base updating_listener 0
             schedule_world 0 (epoch_message 1) eq_refl).
  - exact (X13_ResetMultiplier_without_base updating_listener 0
             blank_world 0 (epoch_message 1) eq_refl).
Defined.

Lemma X14_epoch_schedule_witness :
  let r :=
    PropagateMultiplierFromEpochTransform_propagate updating_listener
      linear 0 0 (epoch_message 3) schedule_world in
  r.1 = Ok tt
  ∧ objs r.2 2 = set_nu 3%float (objs schedule_world 2).
Proof.
  exact (X14_epoch_schedule_sets_every_listener linear 0 schedule_world 0
           (epoch_message 3) 3%Z 2 eq_refl).
Defined.

Lemma X16_ModuleReport_witness :
  events_since blank_world
    (ModuleReport_propagate rejects_save every_fifth 0 (epoch_message 10)
       blank_world).2 ≠ []
  ↔ (5 | 10)%Z.
Proof.
  exact (X16_ModuleReport_fires_on_multiples rejects_save every_fifth
           blank_world 0 (epoch_message 10) 10%Z eq_refl
           ltac:(discriminate)).
Defined.

Lemma X17_ModuleReport_witness :
  ModuleReport_propagate accepts_all never_reports 0 (epoch_message 10)
    blank_world = (Raise ZeroDivisionError, blank_world).
Proof.
  exact (X17_ModuleReport_zero_interval accepts_all never_reports
           blank_world 0 (epoch_message 10) 10%Z eq_refl eq_refl).
Defined.


Lemma X20_register_trigger_witness :
  let r := ModuleReport_register_trigger 3 0 unregistered_world in
  ∃ before after,
    [3; 7; 3] = before ++ 3 :: after
    ∧ (3 ∉ before)
    ∧ r.1 = Raise ValueError
    ∧ objs r.2 0 = set_actions (before ++ after) (objs unregistered_world 0)
    ∧ same_but 0 unregistered_world r.2.
Proof.
  apply (X20_register_trigger_removes_first_occurrence 3 0
           unregistered_world eq_refl).
  cbn. left.
Defined.

Lemma X21_ModuleSave_witness :
  ModuleSave.propagate checkpoint_every_two 0 (epoch_message 4) blank_world
  = (Ok [TorchSave 0 "model_epoch-4.pt"], blank_world).
Proof.
  apply (X21_ModuleSave_checkpoints_on_multiples checkpoint_every_two
           blank_world 0 (epoch_message 4) 4%Z eq_refl ltac:(discriminate)).
  exists 2%Z. reflexivity.
Defined.

Lemma X22_ModuleSave_witness :
  writes_of (ModuleSave.propagate checkpoint_every_two 0 (epoch_message 4)
               blank_world) = [TorchSave 0 "model_epoch-4.pt"]
  ∧ 4%Z = 4%Z.
Proof.
  split; [reflexivity|].
  apply (X22_ModuleSave_one_path_per_epoch checkpoint_every_two 0 0
           (epoch_message 4) (epoch_message 4) blank_world blank_world
           4 4 (TorchSave 0 "model_epoch-4.pt")
           (TorchSave 0 "model_epoch-4.pt") eq_refl eq_refl).
  - vm_compute. left.
  - vm_compute. left.
  - reflexivity.
Defined.

Lemma X23_WriteTSV_witness :
  writes_of (WriteTSV.propagate table_overwritten 0 (epoch_message 4)
               blank_world) = [ToCsv 0 "losses.tsv"]
  ∧ ToCsv 0 "losses.tsv" = ToCsv 0 ("losses" +:+ ".tsv").
Proof.
  split; [reflexivity|].
  apply (X23_WriteTSV_overwrite_single_path table_overwritten 0
           (epoch_message 4) blank_world 4 (ToCsv 0 "losses.tsv")
           eq_refl eq_refl).
  vm_compute. left.
Defined.

Lemma X24_WriteTSV_witness :
  writes_of (WriteTSV.propagate table_per_epoch 0 (epoch_message 4)
               blank_world) = [ToCsv 0 "losses_epoch-4.tsv"]
  ∧ 4%Z = 4%Z.
Proof.
  split; [reflexivity|].
  apply (X24_WriteTSV_one_path_per_epoch table_per_epoch 0 0
           (epoch_message 4) (epoch_message 4) blank_world blank_world
           4 4 (ToCsv 0 "losses_epoch-4.tsv") (ToCsv 0 "losses_epoch-4.tsv")
           eq_refl eq_refl eq_refl).
  - vm_compute. left.
  - vm_compute. left.
  - reflexivity.
Defined.
